(** * Photo-Search: embedding acquisition and similarity ranking

    A shallow embedding of the search core of [app.py]:
    [calculate_similarity], [generate_mock_embedding],
    [generate_text_embedding], [generate_image_embedding] and the two
    handlers [search_by_text] and [search_by_image].

    Python floats are IEEE 754 binary64 numbers; they are modelled by
    Rocq's primitive floats, which are the same numbers with the same
    correctly rounded operations.  A Python [str] is represented by the
    sequence of its UTF-8 bytes (a [string]), a lone surrogate (which a
    [str] read from JSON may hold, and UTF-8 does not allow) by the
    three bytes the same scheme would give it; [text.encode()] returns
    the bytes, or raises on a lone surrogate. *)

From Stdlib Require Import ZArith List Bool Lia String Ascii.
From Stdlib Require Import Floats Permutation Sorted DecimalString.
Import ListNotations.

Local Open Scope Z_scope.

(** ** Python outcomes *)

Module Py.

(** The exceptions the modelled code can raise: of [np.dot] and
    [int], of [str.encode], and of the request to the endpoint. *)
Inductive exn : Type :=
| ValueError (msg : string)
| UnicodeEncodeError (msg : string)
| RequestException (msg : string).

(** A Python call returns, raises, or (for the [while] loop of
    [generate_mock_embedding]) keeps running for ever. *)
Inductive outcome (A : Type) : Type :=
| Ok (a : A)
| Raise (e : exn)
| Diverge.

Arguments Ok {A} a.
Arguments Raise {A} e.
Arguments Diverge {A}.

Definition bind {A B : Type} (m : outcome A) (k : A -> outcome B) : outcome B :=
  match m with
  | Ok a => k a
  | Raise e => Raise e
  | Diverge => Diverge
  end.

(** [for x in l: ys.append(f(x))] where [f] may raise. *)
Fixpoint mapM {A B : Type} (f : A -> outcome B) (l : list A) : outcome (list B) :=
  match l with
  | [] => Ok []
  | x :: l' =>
      bind (f x) (fun y => bind (mapM f l') (fun ys => Ok (y :: ys)))
  end.

(** [l[:n]]: a negative bound counts from the end of the list. *)
Definition slice_to {A : Type} (l : list A) (n : Z) : list A :=
  if 0 <=? n then firstn (Z.to_nat n) l
  else firstn (List.length l - Z.to_nat (- n)) l.

(** [len(l)] *)
Definition len {A : Type} (l : list A) : Z := Z.of_nat (List.length l).

End Py.

Import Py.

Notation "x <- m ;; k" := (Py.bind m (fun x => k))
  (at level 61, m at next level, right associativity).

(** ** hashlib.md5 (RFC 1321) *)

Module MD5.

Definition mask32 : Z := 0xffffffff.

Definition add32 (a b : Z) : Z := Z.land (a + b) mask32.

Definition not32 (a : Z) : Z := Z.lxor a mask32.

Definition rotl32 (x c : Z) : Z :=
  Z.lor (Z.land (Z.shiftl x c) mask32) (Z.shiftr x (32 - c)).

Definition shifts : list Z :=
  [7; 12; 17; 22; 7; 12; 17; 22; 7; 12; 17; 22; 7; 12; 17; 22;
   5;  9; 14; 20; 5;  9; 14; 20; 5;  9; 14; 20; 5;  9; 14; 20;
   4; 11; 16; 23; 4; 11; 16; 23; 4; 11; 16; 23; 4; 11; 16; 23;
   6; 10; 15; 21; 6; 10; 15; 21; 6; 10; 15; 21; 6; 10; 15; 21].

(** [K[i] = floor(2^32 * |sin (i + 1)|)] *)
Definition sines : list Z :=
  [0xd76aa478; 0xe8c7b756; 0x242070db; 0xc1bdceee;
   0xf57c0faf; 0x4787c62a; 0xa8304613; 0xfd469501;
   0x698098d8; 0x8b44f7af; 0xffff5bb1; 0x895cd7be;
   0x6b901122; 0xfd987193; 0xa679438e; 0x49b40821;
   0xf61e2562; 0xc040b340; 0x265e5a51; 0xe9b6c7aa;
   0xd62f105d; 0x02441453; 0xd8a1e681; 0xe7d3fbc8;
   0x21e1cde6; 0xc33707d6; 0xf4d50d87; 0x455a14ed;
   0xa9e3e905; 0xfcefa3f8; 0x676f02d9; 0x8d2a4c8a;
   0xfffa3942; 0x8771f681; 0x6d9d6122; 0xfde5380c;
   0xa4beea44; 0x4bdecfa9; 0xf6bb4b60; 0xbebfbc70;
   0x289b7ec6; 0xeaa127fa; 0xd4ef3085; 0x04881d05;
   0xd9d4d039; 0xe6db99e5; 0x1fa27cf8; 0xc4ac5665;
   0xf4292244; 0x432aff97; 0xab9423a7; 0xfc93a039;
   0x655b59c3; 0x8f0ccc92; 0xffeff47d; 0x85845dd1;
   0x6fa87e4f; 0xfe2ce6e0; 0xa3014314; 0x4e0811a1;
   0xf7537e82; 0xbd3af235; 0x2ad7d2bb; 0xeb86d391].

(** A little-endian word of [n] bytes. *)
Fixpoint le_bytes (n : nat) (w : Z) : list Z :=
  match n with
  | O => []
  | S n' => Z.land w 0xff :: le_bytes n' (Z.shiftr w 8)
  end.

Fixpoint le_word (bs : list Z) : Z :=
  match bs with
  | [] => 0
  | b :: bs' => Z.lor b (Z.shiftl (le_word bs') 8)
  end.

(** The message, a 1 bit, zeros up to 56 modulo 64, then the bit
    length on 8 bytes. *)
Definition pad (msg : list Z) : list Z :=
  let n := Py.len msg in
  let zeros := Z.to_nat ((55 - n) mod 64) in
  msg ++ [0x80] ++ repeat 0 zeros ++ le_bytes 8 (Z.land (8 * n) 0xffffffffffffffff).

Fixpoint chunks (fuel : nat) (k : nat) (bs : list Z) : list (list Z) :=
  match fuel, bs with
  | O, _ => []
  | _, [] => []
  | S fuel', _ => firstn k bs :: chunks fuel' k (skipn k bs)
  end.

Definition state : Type := Z * Z * Z * Z.

Definition step (M : list Z) (st : state) (i : Z) : state :=
  let '(A, B, C, D) := st in
  let '(F, g) :=
    if i <? 16 then (Z.lor (Z.land B C) (Z.land (not32 B) D), i)
    else if i <? 32 then (Z.lor (Z.land D B) (Z.land (not32 D) C), (5 * i + 1) mod 16)
    else if i <? 48 then (Z.lxor (Z.lxor B C) D, (3 * i + 5) mod 16)
    else (Z.lxor C (Z.lor B (not32 D)), (7 * i) mod 16) in
  let F' := add32 (add32 (add32 F A) (nth (Z.to_nat i) sines 0))
                  (nth (Z.to_nat g) M 0) in
  (D, add32 B (rotl32 F' (nth (Z.to_nat i) shifts 0)), B, C).

Definition process (st : state) (chunk : list Z) : state :=
  let M := map le_word (chunks 16 4 chunk) in
  let '(a0, b0, c0, d0) := st in
  let '(A, B, C, D) := fold_left (step M) (map Z.of_nat (seq 0 64)) st in
  (add32 a0 A, add32 b0 B, add32 c0 C, add32 d0 D).

Definition init : state := (0x67452301, 0xefcdab89, 0x98badcfe, 0x10325476).

(** [hashlib.md5(data).digest()]: 16 bytes. *)
Definition digest (msg : list Z) : list Z :=
  let padded := pad msg in
  let '(a, b, c, d) :=
    fold_left process (chunks (List.length padded) 64 padded) init in
  le_bytes 4 a ++ le_bytes 4 b ++ le_bytes 4 c ++ le_bytes 4 d.

Definition hex_digit (n : Z) : ascii :=
  if n <? 10 then ascii_of_N (Z.to_N (48 + n)) else ascii_of_N (Z.to_N (87 + n)).

Definition hex_byte (b : Z) : string :=
  String (hex_digit (Z.shiftr b 4)) (String (hex_digit (Z.land b 0xf)) EmptyString).

(** [hashlib.md5(data).hexdigest()]: 32 lower-case hexadecimal digits. *)
Definition hexdigest (msg : list Z) : string :=
  String.concat EmptyString (map hex_byte (digest msg)).

End MD5.

(** The bytes of the representation of a text. *)
Definition utf8 (text : string) : list Z :=
  map (fun c => Z.of_N (N_of_ascii c)) (list_ascii_of_string text).

(** The byte [0xED] followed by a byte from [0xA0] to [0xBF] starts a
    surrogate, U+D800 to U+DFFF. *)
Definition surrogate_start (c1 c2 : ascii) : bool :=
  (N_of_ascii c1 =? 0xED)%N
  && (0xA0 <=? N_of_ascii c2)%N && (N_of_ascii c2 <=? 0xBF)%N.

(** The text holds a surrogate. *)
Fixpoint has_surrogate (text : string) : bool :=
  match text with
  | EmptyString => false
  | String c1 text' =>
      match text' with
      | String c2 _ => surrogate_start c1 c2
      | EmptyString => false
      end
      || has_surrogate text'
  end.

(** [text.encode()]: the UTF-8 bytes of the text; a surrogate cannot be
    encoded. *)
Definition encode (text : string) : outcome (list Z) :=
  if has_surrogate text
  then Raise (UnicodeEncodeError
                "'utf-8' codec can't encode character: surrogates not allowed")
  else Ok (utf8 text).


(** ** Floats *)

Module Float.

Local Open Scope float_scope.

(** [float(n)] for a small non-negative [int]; exact below [2^53]. *)
Definition of_int (n : Z) : float := PrimFloat.of_uint63 (Uint63.of_Z n).

(** The nearest integer to [a / b] for [b > 0], ties to the even one. *)
Definition round_half_even (a b : Z) : Z :=
  let q := (a / b)%Z in
  match (2 * (a mod b) ?= b)%Z with
  | Lt => q
  | Gt => (q + 1)%Z
  | Eq => if Z.even q then q else (q + 1)%Z
  end.

(** [round(x, 3)]: the float nearest to the decimal with three digits
    nearest to [x] (half to even, on the exact value of [x]).  NaN,
    infinities and zeros round to themselves; from [2^43] on the floats
    are more than 0.001 apart and [x] is its own rounding; below, the
    rounded numerator is less than [2^53] and converts exactly. *)
Definition round3 (x : float) : float :=
  match Prim2SF x with
  | S754_finite s m e =>
      if 0x1p43 <=? abs x then x
      else
        let q := round_half_even (Zpos m * 1000) (2 ^ (- e)) in
        let y := of_int q / 1000 in
        if s then - y else y
  | _ => x
  end.

End Float.

(** ** Embedding providers *)

(** An embedding as the code receives it: [None] or a list of floats. *)
Inductive pyval : Type :=
| PyNone
| PyList (l : list float).

(** [int(c, 16)] for one digit. *)
Definition hex_value (c : ascii) : option Z :=
  let n := Z.of_N (N_of_ascii c) in
  if (48 <=? n) && (n <=? 57) then Some (n - 48)
  else if (97 <=? n) && (n <=? 102) then Some (n - 87)
  else if (65 <=? n) && (n <=? 70) then Some (n - 55)
  else None.

Fixpoint int16_digits (s : string) (acc : Z) : outcome Z :=
  match s with
  | EmptyString => Ok acc
  | String c s' =>
      match hex_value c with
      | Some d => int16_digits s' (16 * acc + d)
      | None => Raise (ValueError "invalid literal for int() with base 16")
      end
  end.

(** [int(s, 16)] on a string of hexadecimal digits (the only strings the
    code passes); anything else is a [ValueError]. *)
Definition int16 (s : string) : outcome Z :=
  match s with
  | EmptyString => Raise (ValueError "invalid literal for int() with base 16")
  | _ => int16_digits s 0
  end.

(** [[s[i:i+2] for i in range(0, len(s), 2)]]: the string cut in pairs,
    the last one shorter when the length is odd. *)
Fixpoint hex_pairs (s : string) : list string :=
  match s with
  | EmptyString => []
  | String c EmptyString => [String c EmptyString]
  | String c1 (String c2 s') => String c1 (String c2 EmptyString) :: hex_pairs s'
  end.

(** [n / 255.0 - 0.5] *)
Definition normalize (n : Z) : float := (Float.of_int n / 255 - 0.5)%float.

(** The [while len(embedding) < dimension] loop.  An iteration on a
    non-empty list adds at least one component, so [dimension] iterations
    are enough; on an empty list the loop never ends. *)
Fixpoint extend_loop (fuel : nat) (embedding : list float) (dimension : Z)
  : outcome (list float) :=
  if Py.len embedding <? dimension then
    match fuel with
    | O => Diverge
    | S fuel' =>
        extend_loop fuel'
          (embedding ++
             Py.slice_to embedding
               (Z.min (Py.len embedding) (dimension - Py.len embedding)))
          dimension
    end
  else Ok embedding.

Definition generate_mock_embedding (text : string) (dimension : Z)
  : outcome (list float) :=
  data <- encode text ;;
  let hash_hex := MD5.hexdigest data in
  embedding <- Py.mapM (fun pair => n <- int16 pair ;; Ok (normalize n))
                       (hex_pairs hash_hex) ;;
  embedding <- extend_loop (Z.to_nat dimension) embedding dimension ;;
  Ok (Py.slice_to embedding dimension).

(** The default [dimension=1024]. *)
Definition default_dimension : Z := 1024.

(** One item of the multimodal request content. *)
Inductive content : Type :=
| text_content (text : string)
| image_base64_content (image_base64 : string).

(** The process configuration and the remote endpoint.  [voyage_post]
    stands for the whole [try] block (the POST, the status check and
    [result["data"][0]["embedding"]]): it returns the embedding, raises
    when any of it raises, or never ends (the POST has no timeout). *)
Record provider : Type := {
  voyage_api_key : option string;
  voyage_post : list content -> outcome pyval
}.

(** [not voyage_api_key] *)
Definition no_api_key (env : provider) : bool :=
  match voyage_api_key env with
  | None => true
  | Some EmptyString => true
  | Some _ => false
  end.

Definition generate_text_embedding (env : provider) (text : string)
  : outcome pyval :=
  if no_api_key env then
    e <- generate_mock_embedding text default_dimension ;; Ok (PyList e)
  else
    match voyage_post env [text_content text] with
    | Ok embedding => Ok embedding
    | Raise _ => e <- generate_mock_embedding text default_dimension ;; Ok (PyList e)
    | Diverge => Diverge
    end.

(** [f"{description} [IMAGE_CONTENT]" if description else "[IMAGE_CONTENT]"] *)
Definition combined_text (description : string) : string :=
  match description with
  | EmptyString => "[IMAGE_CONTENT]"
  | _ => description ++ " [IMAGE_CONTENT]"
  end%string.

Definition generate_image_embedding (env : provider) (image_data description : string)
  : outcome pyval :=
  if no_api_key env then
    e <- generate_mock_embedding (combined_text description) default_dimension ;;
    Ok (PyList e)
  else
    let content :=
      match description with
      | EmptyString => []
      | _ => [text_content description]
      end ++ [image_base64_content image_data] in
    match voyage_post env content with
    | Ok embedding => Ok embedding
    | Raise _ =>
        e <- generate_mock_embedding (combined_text description) default_dimension ;;
        Ok (PyList e)
    | Diverge => Diverge
    end.

(** ** Similarity *)

(** The sum of the products of the components, accumulated from the
    left.  NumPy leaves the order of the additions to the BLAS routine;
    the examples below use vectors whose sums are exact in any order,
    or outcomes that do not depend on the last digits. *)
Definition dot_product (vec1 vec2 : list float) : float :=
  fold_left (fun acc p => (acc + fst p * snd p)%float) (combine vec1 vec2) 0%float.

(** [np.dot] on two one-dimensional arrays: the lengths must agree. *)
Definition np_dot (vec1 vec2 : list float) : outcome float :=
  if (List.length vec1 =? List.length vec2)%nat then Ok (dot_product vec1 vec2)
  else Raise (ValueError "shapes not aligned").

(** [np.linalg.norm]: the square root of the dot product with itself. *)
Definition np_norm (vec : list float) : float :=
  PrimFloat.sqrt (dot_product vec vec).

(** [not embedding] *)
Definition falsy (embedding : pyval) : bool :=
  match embedding with
  | PyNone => true
  | PyList [] => true
  | PyList (_ :: _) => false
  end.

Definition components (embedding : pyval) : list float :=
  match embedding with
  | PyNone => []
  | PyList l => l
  end.

Definition calculate_similarity (embedding1 embedding2 : pyval) : outcome float :=
  if falsy embedding1 || falsy embedding2 then Ok 0%float
  else
    let vec1 := components embedding1 in
    let vec2 := components embedding2 in
    dot_product <- np_dot vec1 vec2 ;;
    let norm1 := np_norm vec1 in
    let norm2 := np_norm vec2 in
    if (norm1 =? 0)%float || (norm2 =? 0)%float then Ok 0%float
    else Ok (dot_product / (norm1 * norm2))%float.

(** ** Ranked search *)

(** A stored photo document.  A key that may be missing is an [option];
    [metadata] is passed through unchanged. *)
Record photo : Type := {
  _id : string;
  title : option string;
  description : option string;
  imageUrl : option string;
  thumbnailUrl : option string;
  metadata : option (list (string * string));
  textEmbedding : option pyval;
  imageEmbedding : option pyval
}.

(** [photo.get(key, default)] *)
Definition get {A : Type} (field : option A) (default : A) : A :=
  match field with
  | Some v => v
  | None => default
  end.

(** One entry of the result list. *)
Record photo_data : Type := {
  pd_id : string;
  pd_title : string;
  pd_description : string;
  pd_imageUrl : string;
  pd_thumbnailUrl : string;
  similarity : float;
  pd_metadata : list (string * string)
}.

Definition make_photo_data (p : photo) (sim : float) : photo_data :=
  {| pd_id := _id p;
     pd_title := get (title p) EmptyString;
     pd_description := get (description p) EmptyString;
     pd_imageUrl := get (imageUrl p) EmptyString;
     pd_thumbnailUrl := get (thumbnailUrl p) EmptyString;
     similarity := Float.round3 sim;
     pd_metadata := get (metadata p) [] |}.

(** The minimum similarity threshold written in both handlers: the
    float of the literal [0.1]. *)
Definition min_similarity : float := 0x1.999999999999ap-4%float.

(** The [for photo in photos] loop of both handlers; [field] is
    [textEmbedding] or [imageEmbedding], [results] the list built so
    far. *)
Fixpoint scan (field : photo -> option pyval) (query_embedding : pyval)
  (photos : list photo) (results : list photo_data) : outcome (list photo_data) :=
  match photos with
  | [] => Ok results
  | p :: photos' =>
      match field p with
      | None => scan field query_embedding photos' results
      | Some embedding =>
          sim <- calculate_similarity query_embedding embedding ;;
          if (min_similarity <? sim)%float
          then scan field query_embedding photos' (results ++ [make_photo_data p sim])
          else scan field query_embedding photos' results
      end
  end.

(** Where [x] goes in a list already in descending order: after the
    entries it is strictly less than, before all others. *)
Fixpoint insert_desc (x : photo_data) (l : list photo_data) : list photo_data :=
  match l with
  | [] => [x]
  | y :: l' =>
      if (similarity x <? similarity y)%float then y :: insert_desc x l'
      else x :: l
  end.

(** [results.sort(key=lambda x: x['similarity'], reverse=True)].
    [list.sort] compares keys with [<] only and is stable, also with
    [reverse=True]: entries with equal keys keep their order. *)
Definition sort_reverse (results : list photo_data) : list photo_data :=
  fold_right insert_desc [] results.

(** What a handler sends back. *)
Inductive response : Type :=
| Results (query : string) (results : list photo_data) (totalResults limit : Z)
| BadRequest (error : string)
| ServerError (error : string) (e : exn).

(** [try: ... except Exception as e: return handler(e)] *)
Definition try_except (body : outcome response) (handler : exn -> response)
  : outcome response :=
  match body with
  | Ok r => Ok r
  | Raise e => Ok (handler e)
  | Diverge => Diverge
  end.

(** The lines after the loop: sort, limit, build the reply. *)
Definition rank (query : string) (results : list photo_data) (limit : Z) : response :=
  let results := sort_reverse results in
  let results := Py.slice_to results limit in
  Results query results (Py.len results) limit.

(** [search_by_text] from the parsed request on: [query] is the stripped
    query string, [limit] the parsed limit, [photos] what
    [photos_collection.find({})] yields. *)
Definition search_by_text (env : provider) (photos : list photo)
  (query : string) (limit : Z) : outcome response :=
  try_except
    (match query with
     | EmptyString => Ok (BadRequest "Query is required")
     | _ =>
         query_embedding <- generate_text_embedding env query ;;
         results <- scan textEmbedding query_embedding photos [] ;;
         Ok (rank query results limit)
     end)
    (fun e => ServerError "Search failed" e).

(** [search_by_image] from the processed upload on: [image_data] is what
    [process_image] returned. *)
Definition search_by_image (env : provider) (photos : list photo)
  (image_data description : string) (limit : Z) : outcome response :=
  try_except
    (query_embedding <- generate_image_embedding env image_data description ;;
     results <- scan imageEmbedding query_embedding photos [] ;;
     Ok (rank (match description with
               | EmptyString => "Image search"%string
               | _ => description
               end) results limit))
    (fun e => ServerError "Image search failed" e).

(** ** The two searches, side by side *)

(** A search request: what each handler receives once the request is
    parsed. *)
Inductive search_call : Type :=
| TextSearch (query : string)
| ImageSearch (image_data description : string).

(** The handler of a call. *)
Definition run (env : provider) (photos : list photo) (call : search_call)
  (limit : Z) : outcome response :=
  match call with
  | TextSearch query => search_by_text env photos query limit
  | ImageSearch image_data description =>
      search_by_image env photos image_data description limit
  end.

(** The embedding field a call ranks against. *)
Definition field_of (call : search_call) : photo -> option pyval :=
  match call with
  | TextSearch _ => textEmbedding
  | ImageSearch _ _ => imageEmbedding
  end.

(** The query embedding of a call. *)
Definition embed (env : provider) (call : search_call) : outcome pyval :=
  match call with
  | TextSearch query => generate_text_embedding env query
  | ImageSearch image_data description =>
      generate_image_embedding env image_data description
  end.

(** A call that passes the handler's own validation. *)
Definition accepted (call : search_call) : Prop :=
  match call with
  | TextSearch query => query <> EmptyString
  | ImageSearch _ _ => True
  end.

(** ** Vocabulary of the statements *)

(** The score of a photo over a field, when it has the field and the
    scorer returns. *)
Definition score (field : photo -> option pyval) (query_embedding : pyval)
  (p : photo) : option float :=
  match field p with
  | None => None
  | Some embedding =>
      match calculate_similarity query_embedding embedding with
      | Ok sim => Some sim
      | _ => None
      end
  end.

(** The entries of the photos that clear the threshold, in the order of
    the corpus. *)
Definition qualifying (field : photo -> option pyval) (query_embedding : pyval)
  (photos : list photo) : list photo_data :=
  flat_map
    (fun p =>
       match score field query_embedding p with
       | Some sim =>
           if (min_similarity <? sim)%float then [make_photo_data p sim] else []
       | None => []
       end)
    photos.

(** Every embedding of the corpus in the field can be scored against the
    query: the scorer returns on it. *)
Definition scorable (field : photo -> option pyval) (query_embedding : pyval)
  (photos : list photo) : Prop :=
  Forall
    (fun p =>
       forall embedding, field p = Some embedding ->
         exists sim, calculate_similarity query_embedding embedding = Ok sim)
    photos.

(** [x] does not come after [y] in descending order of similarity. *)
Definition descending (x y : photo_data) : Prop :=
  (similarity y <=? similarity x)%float = true.

(** The entries whose similarity equals [k]. *)
Definition with_similarity (k : float) (l : list photo_data) : list photo_data :=
  filter (fun x => (similarity x =? k)%float) l.

Definition not_nan (x : float) : Prop := Prim2SF x <> S754_nan.

Definition is_byte (b : Z) : Prop := 0 <= b <= 255.

(** The outcome [m] is the value [a], by the test [eqb]. *)
Definition outcome_is {A : Type} (eqb : A -> A -> bool) (m : outcome A) (a : A) : bool :=
  match m with
  | Ok a' => eqb a' a
  | _ => false
  end.

(** The query string a reply echoes. *)
Definition echo (call : search_call) : string :=
  match call with
  | TextSearch query => query
  | ImageSearch _ description =>
      match description with
      | EmptyString => "Image search"
      | _ => description
      end
  end.

(** The error string of a failed call. *)
Definition failure (call : search_call) : string :=
  match call with
  | TextSearch _ => "Search failed"
  | ImageSearch _ _ => "Image search failed"
  end.

(** What [np.dot] raises on arrays of different lengths. *)
Definition shapes_not_aligned : exn := ValueError "shapes not aligned".

(** What [str.encode] raises on a surrogate. *)
Definition surrogates_not_allowed : exn :=
  UnicodeEncodeError "'utf-8' codec can't encode character: surrogates not allowed".

(** ** Concrete data for the examples *)

(** The one-character text of the JSON string ["\ud83d"], a lone
    surrogate: U+D83D is written ED A0 BD. *)
Definition lone_surrogate : string :=
  String (ascii_of_nat 237) (String (ascii_of_nat 160)
    (String (ascii_of_nat 189) EmptyString)).

(** Fallback mode: no credential; the endpoint is never reached. *)
Definition demo_mode : provider :=
  {| voyage_api_key := None;
     voyage_post := fun _ => Raise (RequestException "no connection") |}.

(** The vector (1, 1, 0, ..., 0) of dimension 1024. *)
Definition two_ones : list float := 1%float :: 1%float :: repeat 0%float 1022.


(** A vector is malformed for a query when both are non-empty and their
    lengths differ. *)
Definition wrong_dimension (query_embedding embedding : pyval) : Prop :=
  falsy query_embedding = false /\ falsy embedding = false /\
  List.length (components embedding) <> List.length (components query_embedding).

(** A live provider that answers every request with [embedding]. *)
Definition live (embedding : pyval) : provider :=
  {| voyage_api_key := Some "key"%string; voyage_post := fun _ => Ok embedding |}.

(** A stored photo with the same vector in both embedding fields. *)
Definition stored (id : string) (embedding : option pyval) : photo :=
  {| _id := id;
     title := Some id;
     description := None;
     imageUrl := None;
     thumbnailUrl := None;
     metadata := None;
     textEmbedding := embedding;
     imageEmbedding := embedding |}.

(** The query (1, 0, 0, 0). *)
Definition unit_query : pyval := PyList [1; 0; 0; 0]%float.

(** Scored against [unit_query]: 1/10, 3/5, 4/5 (twice), 1 and, for the
    last, nothing (two components only). *)
Definition tenth : photo := stored "tenth" (Some (PyList [1; 9; 3; 3]%float)).
Definition three_fifths : photo := stored "three fifths" (Some (PyList [3; 4; 0; 0]%float)).
Definition four_fifths : photo := stored "four fifths" (Some (PyList [4; 3; 0; 0]%float)).
Definition four_fifths' : photo := stored "four fifths again" (Some (PyList [8; 0; 6; 0]%float)).
Definition same : photo := stored "same" (Some (PyList [2; 0; 0; 0]%float)).

(** Scored against [unit_query]: 0.80038..., which [round(_, 3)] turns
    into 0.8 as it does the score 4/5 of [four_fifths]. *)
Definition just_above : photo :=
  stored "just above" (Some (PyList [1000; 749; 0; 0]%float)).
Definition bare : photo := stored "bare" None.
Definition broken : photo := stored "broken" (Some (PyList [1; 0]%float)).

(** What ingestion stores in fallback mode for a photo titled [text]. *)
Definition ingested (text : string) : photo :=
  stored text
    (match generate_text_embedding demo_mode text with
     | Ok embedding => Some embedding
     | _ => None
     end).

(** A small corpus; against [unit_query] four of its photos clear the
    threshold. *)
Definition gallery : list photo :=
  [tenth; three_fifths; bare; four_fifths; same; four_fifths'].

(** The first three results over [gallery]. *)
Definition gallery_top3 : list photo_data :=
  [make_photo_data same 1%float;
   make_photo_data four_fifths 0x1.999999999999ap-1%float;
   make_photo_data four_fifths' 0x1.999999999999ap-1%float].

(** * More of [app.py] *)

(** ** allowed_file *)

Definition ALLOWED_EXTENSIONS : list string := ["png"; "jpg"; "jpeg"; "webp"]%string.

(** ['.' in s] *)
Fixpoint contains_dot (s : string) : bool :=
  match s with
  | EmptyString => false
  | String c s' => Ascii.eqb c "." || contains_dot s'
  end.

(** [s.rsplit('.', 1)]: the string cut at its last dot, or the string
    alone when it has none. *)
Fixpoint rsplit_dot (s : string) : list string :=
  match s with
  | EmptyString => [EmptyString]
  | String c s' =>
      match rsplit_dot s' with
      | [before; after] => [String c before; after]
      | _ => if Ascii.eqb c "." then [EmptyString; s'] else [String c s']
      end
  end.

Definition lower_ascii (c : ascii) : ascii :=
  let n := nat_of_ascii c in
  if (65 <=? n)%nat && (n <=? 90)%nat then ascii_of_nat (n + 32) else c.

(** [s.lower()] on the bytes of [s]: the letters A to Z.  A character
    outside ASCII keeps its bytes here, while Python may change it, but
    never into a string of the letters of the allowed extensions (only
    U+212A and U+0130 lower to ASCII letters, k and i), so the test
    below answers the same. *)
Fixpoint lower (s : string) : string :=
  match s with
  | EmptyString => EmptyString
  | String c s' => String (lower_ascii c) (lower s')
  end.

Definition allowed_file (filename : string) : bool :=
  contains_dot filename
  && match rsplit_dot filename with
     | [_; extension] => existsb (String.eqb (lower extension)) ALLOWED_EXTENSIONS
     | _ => false
     end.

(** ** The upload handlers *)

(** An uploaded file: its name, and what [process_image] makes of it
    (the data URI of the re-encoded image, or the exception of the
    imaging library). *)
Record upload : Type := {
  filename : string;
  process_image : outcome string
}.

(** [search_by_image] from the request on.  [image] is
    [request.files.get('image')], [description] is
    [request.form.get('description', '')] and [limit] is what
    [int(request.form.get('limit', 20))] evaluates to. *)
Definition search_by_image_request (env : provider) (photos : list photo)
  (image : option upload) (description : string) (limit : outcome Z)
  : outcome response :=
  try_except
    (match image with
     | None => Ok (BadRequest "No image file provided")
     | Some file =>
         if (filename file =? "")%string
         then Ok (BadRequest "No image file selected")
         else if negb (allowed_file (filename file))
         then Ok (BadRequest "Invalid file type")
         else
           limit <- limit ;;
           image_data <- process_image file ;;
           search_by_image env photos image_data description limit
     end)
    (fun e => ServerError "Image search failed" e).

(** [f"{title}. {description}" if title and description
     else title or description or "Untitled photo"] *)
Definition text_content_for (title description : string) : string :=
  match title, description with
  | EmptyString, EmptyString => "Untitled photo"
  | EmptyString, _ => description
  | _, EmptyString => title
  | _, _ => title ++ ". " ++ description
  end%string.

(** [f"{i+1}"] *)
Definition file_number (i : nat) : string :=
  NilZero.string_of_uint (Nat.to_uint (S i)).

(** [str(e)] *)
Definition str (e : exn) : string :=
  match e with
  | ValueError msg => msg
  | UnicodeEncodeError msg => msg
  | RequestException msg => msg
  end.

(** One entry of [added_photos]. *)
Record added_photo : Type := {
  added_id : string;
  added_title : string;
  added_filename : string
}.

(** The collection and the two lists of [add_photo], as the loop over
    the files changes them. *)
Record ingestion : Type := {
  collection : list photo;
  added_photos : list added_photo;
  errors : list string
}.

(** [title or f"Photo {i+1}"] *)
Definition title_or_number (title : string) (i : nat) : string :=
  match title with
  | EmptyString => ("Photo " ++ file_number i)%string
  | _ => title
  end.

(** The document [add_photo] stores for the [i]-th file.  [inserted_id]
    is the identifier the database gives it, [meta] the metadata built
    from the form, the same for every file; the two timestamps of the
    stored document are not part of [photo]. *)
Definition photo_doc (inserted_id : string) (meta : list (string * string))
  (title description : string) (i : nat) (image_data : string)
  (text_embedding image_embedding : pyval) : photo :=
  {| _id := inserted_id;
     title := Some (title_or_number title i);
     description := Some description;
     imageUrl := Some image_data;
     thumbnailUrl := Some image_data;
     metadata := Some meta;
     textEmbedding := Some text_embedding;
     imageEmbedding := Some image_embedding |}.

(** The body of the loop of [add_photo] for the [i]-th file.
    [new_id n] is the identifier given to a document inserted into a
    collection of [n] documents; the insertion itself is taken to
    succeed. *)
Definition add_file (env : provider) (new_id : nat -> string)
  (meta : list (string * string)) (title description : string)
  (i : nat) (file : upload) (st : ingestion) : outcome ingestion :=
  if (filename file =? "")%string || negb (allowed_file (filename file))
  then
    Ok {| collection := collection st;
          added_photos := added_photos st;
          errors := errors st
                    ++ [("File " ++ file_number i ++ ": Invalid file type")%string] |}
  else
    match
      (image_data <- process_image file ;;
       text_embedding <-
         generate_text_embedding env (text_content_for title description) ;;
       image_embedding <- generate_image_embedding env image_data description ;;
       Ok (photo_doc (new_id (List.length (collection st))) meta title description i
             image_data text_embedding image_embedding))
    with
    | Ok doc =>
        Ok {| collection := collection st ++ [doc];
              added_photos :=
                added_photos st
                ++ [{| added_id := _id doc;
                       added_title := title_or_number title i;
                       added_filename := filename file |}];
              errors := errors st |}
    | Raise e =>
        Ok {| collection := collection st;
              added_photos := added_photos st;
              errors := errors st
                        ++ [("File " ++ file_number i ++ " (" ++ filename file
                             ++ "): " ++ str e)%string] |}
    | Diverge => Diverge
    end.

(** [for i, file in enumerate(files)] *)
Fixpoint add_files (env : provider) (new_id : nat -> string)
  (meta : list (string * string)) (title description : string)
  (i : nat) (files : list upload) (st : ingestion) : outcome ingestion :=
  match files with
  | [] => Ok st
  | file :: files' =>
      st' <- add_file env new_id meta title description i file st ;;
      add_files env new_id meta title description (S i) files' st'
  end.

(** What [add_photo] sends back; [add_errors] is empty when the reply
    has no ["errors"] key. *)
Inductive add_reply : Type :=
| AddReport (message : string) (added : list added_photo)
            (add_errors : list string) (status : Z)
| AddRejected (error : string)
| AddFailed (error : string) (e : exn).

(** [add_photo]: the reply and the collection after the request.
    [files] is [request.files.getlist('photos')]; [title] and
    [description] are the form fields, [''] when missing. *)
Definition add_photo (env : provider) (new_id : nat -> string)
  (meta : list (string * string)) (photos : list photo)
  (files : list upload) (title description : string)
  : outcome (add_reply * list photo) :=
  match
    (if forallb (fun f => (filename f =? "")%string) files
     then Ok (AddRejected "No photo files provided", photos)
     else
       st <- add_files env new_id meta title description 0 files
               {| collection := photos; added_photos := []; errors := [] |} ;;
       Ok (AddReport
             ("Successfully added "
              ++ NilZero.string_of_uint (Nat.to_uint (List.length (added_photos st)))
              ++ " photos")%string
             (added_photos st) (errors st)
             (match added_photos st with [] => 400 | _ => 201 end),
           collection st))
  with
  | Ok r => Ok r
  | Raise e => Ok (AddFailed "Failed to add photos" e, photos)
  | Diverge => Diverge
  end.

(** ** get_photos *)

(** What the listing can raise: [Cursor.skip] refuses a negative
    number, and the page count divides by the limit. *)
Inductive listing_error : Type :=
| NegativeSkip
| ZeroDivisionError.

Inductive listing : Type :=
| Page (photos : list photo) (page limit total pages : Z)
| ListingFailed (error : string) (e : listing_error).

Fixpoint assoc (key : string) (m : list (string * string)) : option string :=
  match m with
  | [] => None
  | (k, v) :: m' => if (k =? key)%string then Some v else assoc key m'
  end.

(** [metadata.category] of a document. *)
Definition category_of (p : photo) : option string :=
  match metadata p with
  | Some m => assoc "category" m
  | None => None
  end.

(** The documents [find(query)] matches: all of them, or those of the
    category when one other than ['all'] is asked for. *)
Definition matching (photos : list photo) (category : option string) : list photo :=
  match category with
  | None => photos
  | Some c =>
      if (c =? "")%string || (c =? "all")%string then photos
      else filter (fun p => match category_of p with
                            | Some c' => (c' =? c)%string
                            | None => false
                            end) photos
  end.

(** [cursor.limit(n)]: 0 is no limit, a negative number limits like its
    absolute value. *)
Definition cursor_limit (l : list photo) (limit : Z) : list photo :=
  if limit =? 0 then l else firstn (Z.to_nat (Z.abs limit)) l.

(** [get_photos] from the parsed arguments on: the documents of the
    page, in order, before each is formatted, and the pagination. *)
Definition get_photos (photos : list photo) (page limit : Z)
  (category : option string) : listing :=
  let found := matching photos category in
  let skip := (page - 1) * limit in
  if skip <? 0 then ListingFailed "Failed to get photos" NegativeSkip
  else
    let shown := cursor_limit (skipn (Z.to_nat skip) found) limit in
    let total := Py.len found in
    if limit =? 0 then ListingFailed "Failed to get photos" ZeroDivisionError
    else Page shown page limit total ((total + limit - 1) / limit).

(** ** Vocabulary of the further statements *)

(** What a call asks of the endpoint when a credential is set. *)
Definition request_of (call : search_call) : list content :=
  match call with
  | TextSearch query => [text_content query]
  | ImageSearch image_data description =>
      match description with
      | EmptyString => []
      | _ => [text_content description]
      end ++ [image_base64_content image_data]
  end.

(** The text of a call that the fallback provider hashes. *)
Definition text_of (call : search_call) : string :=
  match call with
  | TextSearch query => query
  | ImageSearch _ description => combined_text description
  end.

(** The endpoint is not asked (no credential), or it answers or fails:
    it does not stall. *)
Definition endpoint_ends (env : provider) (request : list content) : Prop :=
  no_api_key env = true \/ voyage_post env request <> Diverge.

(** A stored embedding that is a list of [n] floats. *)
Definition has_dimension (n : nat) (embedding : option pyval) : Prop :=
  exists v, embedding = Some (PyList v) /\ List.length v = n.

(** A collection in which every photo has both embeddings, each of the
    dimension of the fallback provider. *)
Definition fallback_sized (photos : list photo) : Prop :=
  Forall (fun p => has_dimension 1024 (textEmbedding p)
                   /\ has_dimension 1024 (imageEmbedding p)) photos.

(** What [add_photo] stores for a file: both embeddings, as the
    providers return them for the text of the form and for the
    processed image. *)
Definition stored_by (env : provider) (title description : string) (d : photo) : Prop :=
  exists image_data text_embedding image_embedding,
    generate_text_embedding env (text_content_for title description)
    = Ok text_embedding
    /\ generate_image_embedding env image_data description = Ok image_embedding
    /\ textEmbedding d = Some text_embedding
    /\ imageEmbedding d = Some image_embedding
    /\ imageUrl d = Some image_data.

(** A file [add_photo] does not even try to process. *)
Definition unusable (file : upload) : Prop :=
  filename file = EmptyString \/ allowed_file (filename file) = false.

(** The test of the loop of [add_photo], the other way round. *)
Definition usable_file (file : upload) : bool :=
  negb (filename file =? "")%string && allowed_file (filename file).

(** A stored document and its entry in ["added_photos"] come from a
    file of the request: one with a name that is allowed, which
    [process_image] turned into the document's image. *)
Definition made_from (files : list upload) (doc : photo) (entry : added_photo) : Prop :=
  exists file image_data,
    In file files
    /\ usable_file file = true
    /\ process_image file = Ok image_data
    /\ imageUrl doc = Some image_data
    /\ added_filename entry = filename file
    /\ _id doc = added_id entry.

(** The endpoint is never asked, or it answers or fails whatever it is
    asked. *)
Definition never_stalls (env : provider) : Prop :=
  no_api_key env = true \/ forall request, voyage_post env request <> Diverge.

(** The documents of a listing; none when it failed. *)
Definition page_photos (l : listing) : list photo :=
  match l with
  | Page shown _ _ _ _ => shown
  | ListingFailed _ _ => []
  end.

(** The pages [1] to [pages] of a listing, one after the other. *)
Definition all_pages (photos : list photo) (limit : Z) (category : option string)
  (pages : nat) : list photo :=
  List.concat
    (map (fun k => page_photos (get_photos photos (Z.of_nat k) limit category))
         (seq 1 pages)).

(** Three uploads: a good one, one with a refused name, one the imaging
    library cannot read. *)
Definition three_uploads : list upload :=
  [{| filename := "beach.png"; process_image := Ok "data:image/jpeg;base64,AAAA" |};
   {| filename := "notes.txt"; process_image := Ok "data:image/jpeg;base64,BBBB" |};
   {| filename := "torn.jpg";
      process_image := Raise (ValueError "cannot identify image file") |}]%string.

(** * Facts *)

(** ** The model on known values *)

Section KnownValues.

Local Open Scope string_scope.

Example md5_empty : MD5.hexdigest (utf8 "") = "d41d8cd98f00b204e9800998ecf8427e".
Proof. vm_compute. reflexivity. Qed.

Example md5_abc : MD5.hexdigest (utf8 "abc") = "900150983cd24fb0d6963f7d28e17f72".
Proof. vm_compute. reflexivity. Qed.

Example md5_fox :
  MD5.hexdigest (utf8 "The quick brown fox jumps over the lazy dog")
  = "9e107d9d372bb6826bd81d3542a419d6".
Proof. vm_compute. reflexivity. Qed.

(** Fifty-six bytes: the padding opens a second block. *)
Example md5_padding_block :
  MD5.hexdigest (utf8 "abcdefghijabcdefghijabcdefghijabcdefghijabcdefghijabcdef")
  = "78e8d6e3c21dc3d68cf8c361faaeaf51".
Proof. vm_compute. reflexivity. Qed.

(** Eighty bytes: two blocks. *)
Example md5_two_blocks :
  MD5.hexdigest
    (utf8 "12345678901234567890123456789012345678901234567890123456789012345678901234567890")
  = "57edf4a22be3c955ac49da2e2107b67a".
Proof. vm_compute. reflexivity. Qed.

Example md5_red_sunset :
  MD5.hexdigest (utf8 "red sunset") = "40cbe5ef3b2e9dcf0b4c9eb04fa38175".
Proof. vm_compute. reflexivity. Qed.

Local Open Scope float_scope.

(** [round(0.5004, 3)] and [round(0.5005, 3)] are both [0.5]: the float
    of 0.5005 lies below the decimal. *)
Example round3_down :
  Float.round3 0x1.00346dc5d6388p-1 = 0.5 /\ Float.round3 0x1.004189374bc6ap-1 = 0.5.
Proof. split; vm_compute; reflexivity. Qed.

(** [round(0.0015, 3) = 0.002], [round(0.1004, 3) = 0.1],
    [round(-0.0004, 3) = -0.0]. *)
Example round3_samples :
  Float.round3 0x1.89374bc6a7efap-10 = 0x1.0624dd2f1a9fcp-9
  /\ Float.round3 0x1.9b3d07c84b5ddp-4 = 0x1.999999999999ap-4
  /\ Float.round3 (-0x1.a36e2eb1c432dp-12) = (-0).
Proof. repeat split; vm_compute; reflexivity. Qed.

(** The scores of the photos of [gallery] against [unit_query], and the
    three results of a search limited to 3: the best first, the two
    photos of equal similarity in the order of the corpus. *)
Example gallery_scores :
  map (score textEmbedding unit_query) gallery
  = [Some 0x1.999999999999ap-4; Some 0x1.3333333333333p-1; None;
     Some 0x1.999999999999ap-1; Some 1; Some 0x1.999999999999ap-1].
Proof. vm_compute. reflexivity. Qed.

Example gallery_search :
  run (live unit_query) gallery (TextSearch "photo") 3
  = Ok (Results "photo" gallery_top3 3 3).
Proof. vm_compute. reflexivity. Qed.

(** [results[:-1]] drops the last of the four entries. *)
Example gallery_search_negative_limit :
  run (live unit_query) gallery (TextSearch "photo") (-1)
  = Ok (Results "photo" gallery_top3 3 (-1)).
Proof. vm_compute. reflexivity. Qed.

End KnownValues.

(** ** Comparison of floats *)

Section Comparison.

Lemma mantissa_compare_antisym (m1 m2 : positive) :
  PosDef.Pos.compare_cont Eq m2 m1 = CompOpp (PosDef.Pos.compare_cont Eq m1 m2).
Proof. exact (eq_sym (Pos.compare_cont_antisym m1 m2 Eq)). Qed.

Lemma mantissa_compare_spec (m1 m2 : positive) :
  CompareSpec (m1 = m2) (m1 < m2)%positive (m2 < m1)%positive
              (PosDef.Pos.compare_cont Eq m1 m2).
Proof. exact (Pos.compare_spec m1 m2). Qed.

Lemma SFcompare_antisym (a b : spec_float) :
  SFcompare b a = option_map CompOpp (SFcompare a b).
Proof.
  destruct a as [s1 | s1 | | s1 m1 e1], b as [s2 | s2 | | s2 m2 e2]; simpl;
    try destruct s1; try destruct s2; try reflexivity.
  all: rewrite (Z.compare_antisym e1 e2); destruct (e1 ?= e2); simpl;
    try reflexivity.
  all: rewrite (mantissa_compare_antisym m1 m2), ?CompOpp_involutive; reflexivity.
Qed.

(** Floats that compare equal compare alike with any third one. *)
Lemma SFcompare_Eq_l (a b c : spec_float) :
  SFcompare a b = Some Eq -> SFcompare a c = SFcompare b c.
Proof.
  destruct a as [s1 | s1 | | s1 m1 e1], b as [s2 | s2 | | s2 m2 e2]; simpl;
    try destruct s1; try destruct s2; try discriminate; try reflexivity.
  all: destruct (Z.compare_spec e1 e2) as [He | He | He]; try discriminate; subst.
  all: destruct (mantissa_compare_spec m1 m2) as [Hm | Hm | Hm]; try discriminate; subst.
  all: reflexivity.
Qed.

Lemma SFcompare_None (a b : spec_float) :
  a <> S754_nan -> b <> S754_nan -> SFcompare a b <> None.
Proof. destruct a, b; simpl; congruence. Qed.

Local Open Scope float_scope.

Lemma ltb_leb (x y : float) : (x <? y) = true -> (x <=? y) = true.
Proof.
  rewrite ltb_spec, leb_spec. unfold SFltb, SFleb.
  destruct (SFcompare _ _) as [[ | | ] | ]; congruence.
Qed.

Lemma ltb_not_nan_r (x y : float) : (x <? y) = true -> not_nan y.
Proof.
  rewrite ltb_spec. unfold SFltb, not_nan. intros H E. rewrite E in H.
  destruct (Prim2SF x); discriminate.
Qed.

Lemma not_ltb_leb (x y : float) :
  not_nan x -> not_nan y -> (x <? y) = false -> (y <=? x) = true.
Proof.
  unfold not_nan. intros Hx Hy. rewrite ltb_spec, leb_spec. unfold SFltb, SFleb.
  rewrite (SFcompare_antisym (Prim2SF x) (Prim2SF y)).
  pose proof (SFcompare_None _ _ Hx Hy) as Hc.
  destruct (SFcompare (Prim2SF x) (Prim2SF y)) as [[ | | ] | ]; simpl; congruence.
Qed.

(** Two floats equal to a third are not strictly ordered. *)
Lemma eqb_ltb (x y k : float) :
  (x =? k) = true -> (y =? k) = true -> (x <? y) = false.
Proof.
  rewrite !eqb_spec, ltb_spec. unfold SFeqb, SFltb. intros Hx Hy.
  destruct (SFcompare (Prim2SF x) (Prim2SF k)) as [[ | | ] | ] eqn:Ex; try discriminate.
  rewrite (SFcompare_Eq_l _ _ _ Ex).
  rewrite (SFcompare_antisym (Prim2SF y) (Prim2SF k)).
  destruct (SFcompare (Prim2SF y) (Prim2SF k)) as [[ | | ] | ]; simpl; congruence.
Qed.


End Comparison.

(** ** Rounding never invents a NaN *)

Section Rounding.

Lemma iter_pos_invariant {A : Type} (P : A -> Prop) (f : A -> A) :
  (forall a, P a -> P (f a)) -> forall n a, P a -> P (iter_pos f n a).
Proof.
  intros Hf. induction n as [n IH | n IH | ]; simpl; intros a Ha; auto.
Qed.

Lemma shr_1_nonneg (mrs : shr_record) : 0 <= shr_m mrs -> 0 <= shr_m (shr_1 mrs).
Proof.
  destruct mrs as [m r s]. simpl.
  destruct m as [ | [p | p | ] | p]; simpl; lia.
Qed.

Lemma shr_nonneg (mrs : shr_record) (e n : Z) :
  0 <= shr_m mrs -> 0 <= shr_m (fst (shr mrs e n)).
Proof.
  intros H. destruct n; simpl; auto.
  apply (iter_pos_invariant (fun r => 0 <= shr_m r)); auto using shr_1_nonneg.
Qed.

Lemma shr_fexp_nonneg (prec emax m e : Z) (l : location) :
  0 <= m -> 0 <= shr_m (fst (shr_fexp prec emax m e l)).
Proof.
  intros H. unfold shr_fexp. apply shr_nonneg.
  destruct l as [ | [ | | ]]; simpl; assumption.
Qed.

Lemma round_nearest_even_nonneg (m : Z) (l : location) :
  0 <= m -> 0 <= round_nearest_even m l.
Proof.
  intros H. destruct l as [ | [ | | ]]; simpl; try lia.
  destruct (Z.even m); lia.
Qed.

Lemma binary_round_aux_not_nan (prec emax : Z) (sx : bool) (mx ex : Z) (lx : location) :
  0 <= mx -> binary_round_aux prec emax sx mx ex lx <> S754_nan.
Proof.
  intros H. unfold binary_round_aux.
  pose proof (shr_fexp_nonneg prec emax mx ex lx H) as H1.
  destruct (shr_fexp prec emax mx ex lx) as [mrs' e']. simpl in H1.
  pose proof (shr_fexp_nonneg prec emax _ e' loc_Exact
                (round_nearest_even_nonneg _ (loc_of_shr_record mrs') H1)) as H2.
  destruct (shr_fexp prec emax _ e' loc_Exact) as [mrs'' e'']. simpl in H2.
  destruct (shr_m mrs'') as [ | m | m]; try discriminate; try lia.
  destruct (e'' <=? emax - prec); discriminate.
Qed.

Lemma SFdiv_not_nan (prec emax : Z) (a : spec_float) (s : bool) (m : positive) (e : Z) :
  a <> S754_nan -> SFdiv prec emax a (S754_finite s m e) <> S754_nan.
Proof.
  intros Ha. destruct a as [sa | sa | | sa ma ea]; simpl; try discriminate; try congruence.
  unfold SFdiv_core_binary.
  set (m' := match _ with Z0 => Z.pos ma | Zpos _ => _ | Zneg _ => 0 end).
  assert (0 <= m') as Hm'.
  { subst m'. destruct (_ - _ - _); try lia. apply Z.shiftl_nonneg. lia. }
  pose proof (Z_div_mod m' (Z.pos m) eq_refl) as Hdiv.
  destruct (Z.div_eucl m' (Z.pos m)) as [q r].
  apply binary_round_aux_not_nan. nia.
Qed.

Lemma binary_normalize_not_nan (prec emax m e : Z) (sz : bool) :
  binary_normalize prec emax m e sz <> S754_nan.
Proof.
  destruct m as [ | p | p]; simpl; try discriminate; unfold binary_round.
  all: destruct (shl_align _ _ _) as [mz ez]; apply binary_round_aux_not_nan; lia.
Qed.

Local Open Scope float_scope.

Lemma round3_not_nan (x : float) : not_nan x -> not_nan (Float.round3 x).
Proof.
  unfold not_nan, Float.round3. intros Hx.
  destruct (Prim2SF x) as [s | s | | s m e] eqn:Ex; try (rewrite Ex; discriminate);
    try congruence.
  destruct (0x1p43 <=? abs x); [now rewrite Ex | ].
  set (q := Float.round_half_even _ _).
  assert (Prim2SF (Float.of_int q / 1000) <> S754_nan) as Hy.
  { rewrite div_spec. apply SFdiv_not_nan.
    unfold Float.of_int. rewrite of_uint63_spec. apply binary_normalize_not_nan. }
  destruct s; [ | exact Hy].
  rewrite opp_spec. destruct (Prim2SF (Float.of_int q / 1000)); simpl; congruence.
Qed.

End Rounding.

(** ** A finite float divided by itself *)

Section DivSelf.


Local Open Scope float_scope.



End DivSelf.

(** ** The fallback embedding *)

Section MockEmbedding.

Lemma le_bytes_length (n : nat) (w : Z) : List.length (MD5.le_bytes n w) = n.
Proof. revert w. induction n as [ | n IH]; simpl; intros w; auto. Qed.

Lemma le_bytes_bytes (n : nat) (w : Z) : Forall is_byte (MD5.le_bytes n w).
Proof.
  revert w. induction n as [ | n IH]; simpl; intros w; constructor; auto.
  unfold is_byte. change 0xff with (Z.ones 8). rewrite Z.land_ones by lia.
  change (2 ^ 8) with 256. change (Z.ones 8) with 255.
  pose proof (Z.mod_pos_bound w 256 eq_refl). lia.
Qed.

Lemma digest_length (msg : list Z) : List.length (MD5.digest msg) = 16%nat.
Proof.
  unfold MD5.digest.
  destruct (fold_left _ _ _) as [[[a b] c] d].
  now rewrite !length_app, !le_bytes_length.
Qed.

Lemma digest_bytes (msg : list Z) : Forall is_byte (MD5.digest msg).
Proof.
  unfold MD5.digest.
  destruct (fold_left _ _ _) as [[[a b] c] d].
  repeat (apply Forall_app; split); apply le_bytes_bytes.
Qed.

(** A property checked on the 256 bytes holds of every byte. *)
Lemma all_bytes (P : Z -> bool) :
  forallb P (map Z.of_nat (seq 0 256)) = true -> forall b, is_byte b -> P b = true.
Proof.
  intros H b Hb. rewrite forallb_forall in H. apply H.
  apply in_map_iff. exists (Z.to_nat b). split; [unfold is_byte in Hb; lia | ].
  apply in_seq. unfold is_byte in Hb. lia.
Qed.

(** Reading back the two digits of a byte. *)
Lemma int16_hex_byte (b : Z) : is_byte b -> int16 (MD5.hex_byte b) = Ok b.
Proof.
  intros Hb.
  pose proof (all_bytes (fun b => outcome_is Z.eqb (int16 (MD5.hex_byte b)) b)
                ltac:(vm_compute; reflexivity) b Hb) as H.
  cbv beta in H. destruct (int16 (MD5.hex_byte b)); simpl in H; try discriminate.
  apply Z.eqb_eq in H. now subst.
Qed.

Lemma hex_pairs_hexdigest (bs : list Z) :
  hex_pairs (String.concat EmptyString (map MD5.hex_byte bs)) = map MD5.hex_byte bs.
Proof.
  induction bs as [ | b bs IH]; [reflexivity | ].
  destruct bs as [ | b' bs]; [reflexivity | ].
  change (String.concat EmptyString (map MD5.hex_byte (b :: b' :: bs)))
    with (MD5.hex_byte b ++ EmptyString
            ++ String.concat EmptyString (map MD5.hex_byte (b' :: bs)))%string.
  unfold MD5.hex_byte at 1. cbn [String.append hex_pairs map].
  f_equal. exact IH.
Qed.

Lemma parse_hex_bytes (bs : list Z) :
  Forall is_byte bs ->
  Py.mapM (fun pair => n <- int16 pair ;; Ok (normalize n)) (map MD5.hex_byte bs)
  = Ok (map normalize bs).
Proof.
  induction 1 as [ | b bs Hb _ IH]; [reflexivity | ].
  cbn [map Py.mapM]. rewrite (int16_hex_byte b Hb). cbn [Py.bind].
  rewrite IH. reflexivity.
Qed.

Lemma firstn_In {A : Type} (n : nat) (l : list A) (x : A) :
  In x (firstn n l) -> In x l.
Proof.
  revert l. induction n as [ | n IH]; intros [ | y l]; simpl; try tauto.
  intros [H | H]; auto.
Qed.

Lemma slice_to_firstn {A : Type} (l : list A) (n : Z) :
  0 <= n -> Py.slice_to l n = firstn (Z.to_nat n) l.
Proof.
  intros H. unfold Py.slice_to. destruct (0 <=? n) eqn:E; [reflexivity | lia].
Qed.

(** From a non-empty list the loop ends, with at least [dimension]
    components (when [dimension] is that large), all of them taken
    from the list it started with. *)
Lemma extend_loop_ends (fuel : nat) :
  forall (embedding : list float) (dimension : Z),
    embedding <> [] ->
    dimension <= Z.of_nat fuel + Py.len embedding ->
    exists r, extend_loop fuel embedding dimension = Ok r
              /\ dimension <= Py.len r
              /\ forall x, In x r -> In x embedding.
Proof.
  induction fuel as [ | fuel IH]; intros embedding dimension Hne Hfuel.
  - simpl. destruct (Py.len embedding <? dimension) eqn:E; [lia | ].
    exists embedding. repeat split; auto; lia.
  - simpl. destruct (Py.len embedding <? dimension) eqn:E.
    + set (n := Z.min (Py.len embedding) (dimension - Py.len embedding)).
      assert (1 <= Py.len embedding) as Hlen.
      { unfold Py.len. destruct embedding; [congruence | simpl; lia]. }
      assert (1 <= n <= Py.len embedding) as Hn by (unfold n; lia).
      rewrite slice_to_firstn by lia.
      destruct (IH (embedding ++ firstn (Z.to_nat n) embedding) dimension)
        as (r & Hr & Hdim & Hin).
      * destruct embedding; [congruence | discriminate].
      * unfold Py.len in *. rewrite length_app, length_firstn. lia.
      * exists r. repeat split; auto.
        intros x Hx. apply Hin in Hx. apply in_app_or in Hx.
        destruct Hx as [Hx | Hx]; [exact Hx | ].
        eapply firstn_In; eauto.
    + exists embedding. repeat split; auto; lia.
Qed.

Lemma encode_without_surrogate (text : string) :
  has_surrogate text = false -> encode text = Ok (utf8 text).
Proof. unfold encode. now intros ->. Qed.

Lemma encode_with_surrogate (text : string) :
  has_surrogate text = true -> encode text = Raise surrogates_not_allowed.
Proof. unfold encode. now intros ->. Qed.

(** On a text with a surrogate the fallback provider raises at once,
    whatever the dimension. *)
Lemma generate_mock_embedding_raises (text : string) (dimension : Z) :
  has_surrogate text = true ->
  generate_mock_embedding text dimension = Raise surrogates_not_allowed.
Proof.
  intros H. unfold generate_mock_embedding.
  now rewrite (encode_with_surrogate text H).
Qed.

(** On every other text the fallback provider returns: exactly
    [default_dimension] components, each the image of a byte of the
    digest. *)
Lemma generate_mock_embedding_returns (text : string) :
  has_surrogate text = false ->
  exists v, generate_mock_embedding text default_dimension = Ok v
            /\ List.length v = 1024%nat
            /\ forall x, In x v ->
                 exists b, In b (MD5.digest (utf8 text))
                           /\ is_byte b /\ x = normalize b.
Proof.
  intros Henc.
  unfold generate_mock_embedding, MD5.hexdigest.
  rewrite (encode_without_surrogate text Henc). cbn [Py.bind].
  rewrite hex_pairs_hexdigest, (parse_hex_bytes _ (digest_bytes _)).
  cbn [Py.bind].
  destruct (extend_loop_ends (Z.to_nat default_dimension)
              (map normalize (MD5.digest (utf8 text))) default_dimension)
    as (r & Hr & Hdim & Hin).
  - pose proof (digest_length (utf8 text)) as Hl.
    destruct (MD5.digest (utf8 text)); [discriminate | discriminate].
  - unfold default_dimension, Py.len. lia.
  - rewrite Hr. cbn [Py.bind].
    exists (Py.slice_to r default_dimension). split; [reflexivity | ].
    rewrite slice_to_firstn by (unfold default_dimension; lia).
    split.
    + rewrite length_firstn. unfold Py.len, default_dimension in *. lia.
    + intros x Hx. apply firstn_In in Hx. apply Hin in Hx.
      apply in_map_iff in Hx. destruct Hx as (b & Hb & Hbin).
      exists b. split; [exact Hbin | split; [ | now subst]].
      exact (proj1 (Forall_forall _ _) (digest_bytes _) b Hbin).
Qed.

(** A vector was returned: the text had no surrogate. *)
Lemma generate_mock_embedding_Ok (text : string) (dimension : Z) (v : list float) :
  generate_mock_embedding text dimension = Ok v -> has_surrogate text = false.
Proof.
  intros H. destruct (has_surrogate text) eqn:E; [ | reflexivity].
  rewrite (generate_mock_embedding_raises text dimension E) in H. discriminate.
Qed.

(** The sentinel marker adds no surrogate. *)
Lemma has_surrogate_app (s t : string) (c : ascii) :
  (N_of_ascii c <? 0xA0)%N = true ->
  has_surrogate (s ++ String c t) = has_surrogate s || has_surrogate (String c t).
Proof.
  intros Hc. induction s as [ | a s IH]; [reflexivity | ].
  cbn [String.append]. cbn [has_surrogate] in *. rewrite IH.
  destruct s as [ | a' s].
  - cbn [String.append]. unfold surrogate_start.
    replace ((0xA0 <=? N_of_ascii c)%N) with false
      by (symmetry; apply N.leb_gt; now apply N.ltb_lt).
    now rewrite andb_false_r.
  - cbn [String.append]. now rewrite orb_assoc.
Qed.

Lemma combined_text_surrogate (description : string) :
  has_surrogate (combined_text description) = has_surrogate description.
Proof.
  unfold combined_text. destruct description as [ | c d]; [reflexivity | ].
  rewrite (has_surrogate_app (String c d) "[IMAGE_CONTENT]" " " eq_refl).
  change (has_surrogate " [IMAGE_CONTENT]") with false. apply orb_false_r.
Qed.

End MockEmbedding.

(** * The claims *)

Section EmbeddingClaims.

Local Open Scope float_scope.

(** C3, as stated, fails: the digest of ["g"] is
    [b2f5ff47436671b6e533d8dc3614845d]; its third byte is 255, so the
    third component of the fallback vector is 255/255 - 0.5 = 0.5,
    which is not below 0.5. *)
Lemma mock_component_reaches_half :
  MD5.hexdigest (utf8 "g") = "b2f5ff47436671b6e533d8dc3614845d"%string
  /\ (v <- generate_mock_embedding "g" default_dimension ;; Ok (nth 2%nat v 0))
     = Ok (normalize 255)
  /\ normalize 255 = 0.5
  /\ (normalize 255 <? 0.5) = false.
Proof. repeat split; vm_compute; reflexivity. Qed.

(** C3, amended: for every input string the fallback provider returns
    a vector each of whose components is [b/255 - 0.5] for a byte [b]
    of the digest, and lies in the closed interval [-0.5, 0.5]; this
    holds of every vector it returns, and it returns one for every
    string that [encode] accepts. *)
Theorem mock_components_closed_interval (text : string) :
  (has_surrogate text = false ->
   exists v, generate_mock_embedding text default_dimension = Ok v
     /\ forall x, In x v ->
          exists b, In b (MD5.digest (utf8 text)) /\ (0 <= b <= 255)%Z
                    /\ x = normalize b
                    /\ (-0.5 <=? x) = true /\ (x <=? 0.5) = true)
  /\ (forall v, generate_mock_embedding text default_dimension = Ok v ->
      forall x, In x v ->
        exists b, In b (MD5.digest (utf8 text)) /\ (0 <= b <= 255)%Z
                  /\ x = normalize b
                  /\ (-0.5 <=? x) = true /\ (x <=? 0.5) = true).
Proof.
  assert (has_surrogate text = false ->
          exists v, generate_mock_embedding text default_dimension = Ok v
            /\ forall x, In x v ->
                 exists b, In b (MD5.digest (utf8 text)) /\ (0 <= b <= 255)%Z
                           /\ x = normalize b
                           /\ (-0.5 <=? x) = true /\ (x <=? 0.5) = true) as Hmain.
  { intros Henc.
    destruct (generate_mock_embedding_returns text Henc) as (v & Hv & _ & Hin).
    exists v. split; [exact Hv | ].
    intros x Hx. destruct (Hin x Hx) as (b & Hb & Hbyte & ->).
    exists b. repeat split; try exact Hb; try apply Hbyte.
    - exact (all_bytes (fun b => -0.5 <=? normalize b)
               ltac:(vm_compute; reflexivity) b Hbyte).
    - exact (all_bytes (fun b => normalize b <=? 0.5)
               ltac:(vm_compute; reflexivity) b Hbyte). }
  split; [exact Hmain | ].
  intros v Hv.
  destruct (Hmain (generate_mock_embedding_Ok _ _ _ Hv)) as (v' & Hv' & Hin).
  rewrite Hv in Hv'. injection Hv' as <-. exact Hin.
Qed.

(** C6, as stated, fails: the one-character string of a lone surrogate,
    which [search_by_text] receives from the JSON body
    [{"query": "\ud83d"}], cannot be encoded; the fallback provider
    raises on it and returns no vector, and the search answers with its
    error reply. *)
Lemma lone_surrogate_has_no_vector :
  encode lone_surrogate
  = Raise (UnicodeEncodeError
             "'utf-8' codec can't encode character: surrogates not allowed")
  /\ generate_mock_embedding lone_surrogate default_dimension
     = Raise (UnicodeEncodeError
                "'utf-8' codec can't encode character: surrogates not allowed")
  /\ search_by_text demo_mode [] lone_surrogate 20
     = Ok (ServerError "Search failed"
             (UnicodeEncodeError
                "'utf-8' codec can't encode character: surrogates not allowed")).
Proof. repeat split; vm_compute; reflexivity. Qed.

(** C6, amended: for every input string that can be encoded as UTF-8
    (one without a lone surrogate), whatever its length, the fallback
    provider returns a vector of exactly 1024 components. *)
Theorem mock_embedding_dimension (text : string) :
  has_surrogate text = false ->
  exists v, generate_mock_embedding text default_dimension = Ok v
            /\ Py.len v = 1024%Z.
Proof.
  intros Henc.
  destruct (generate_mock_embedding_returns text Henc) as (v & Hv & Hlen & _).
  exists v. split; [exact Hv | ]. unfold Py.len. rewrite Hlen. reflexivity.
Qed.

Lemma mock_embedding_dimension_witness :
  has_surrogate "g" = false
  /\ exists v, generate_mock_embedding "g" default_dimension = Ok v
               /\ Py.len v = 1024%Z.
Proof.
  assert (has_surrogate "g" = false) as H by reflexivity.
  split; [exact H | ].
  exact (mock_embedding_dimension "g" H).
Defined.

(** C8: without a credential, two image payloads embedded with the
    same description give the same outcome, that of the fallback
    provider on the description followed by the sentinel marker (on
    the marker alone for an empty description): the same vector for
    every description that can be encoded, as every description of a
    form can. *)
Theorem fallback_image_embedding_ignores_image
  (env : provider) (image_data1 image_data2 description : string) :
  no_api_key env = true ->
  generate_image_embedding env image_data1 description
  = generate_image_embedding env image_data2 description
  /\ (has_surrogate description = false ->
      exists v,
        generate_image_embedding env image_data1 description = Ok (PyList v)
        /\ generate_image_embedding env image_data2 description = Ok (PyList v)
        /\ generate_mock_embedding
             (match description with
              | EmptyString => "[IMAGE_CONTENT]"
              | _ => description ++ " [IMAGE_CONTENT]"
              end)%string 1024%Z = Ok v).
Proof.
  intros Hkey. unfold generate_image_embedding. rewrite Hkey.
  split; [reflexivity | ]. intros Henc.
  rewrite <- combined_text_surrogate in Henc.
  destruct (generate_mock_embedding_returns (combined_text description) Henc)
    as (v & Hv & _).
  exists v. rewrite Hv. repeat split; reflexivity || exact Hv.
Qed.

Lemma fallback_image_embedding_ignores_image_witness :
  no_api_key demo_mode = true
  /\ generate_image_embedding demo_mode "data:image/jpeg;base64,AAAA" "sunset"
     = generate_image_embedding demo_mode "data:image/jpeg;base64,BBBB" "sunset"
  /\ exists v,
       generate_image_embedding demo_mode "data:image/jpeg;base64,AAAA" "sunset"
       = Ok (PyList v)
       /\ generate_image_embedding demo_mode "data:image/jpeg;base64,BBBB" "sunset"
          = Ok (PyList v)
       /\ generate_mock_embedding "sunset [IMAGE_CONTENT]" 1024%Z = Ok v.
Proof.
  assert (no_api_key demo_mode = true) as H by reflexivity.
  destruct (fallback_image_embedding_ignores_image demo_mode
              "data:image/jpeg;base64,AAAA" "data:image/jpeg;base64,BBBB" "sunset" H)
    as [H1 H2].
  split; [exact H | split; [exact H1 | exact (H2 eq_refl)]].
Defined.

End EmbeddingClaims.

Section SimilarityClaims.

Local Open Scope float_scope.

(** C7, as stated, fails: the zero vector of dimension 2 has norm 0,
    yet scoring it against a vector of dimension 1, or a vector of
    dimension 1024 against it, raises in [np.dot], before the norms are
    looked at. *)
Lemma zero_norm_wrong_dimension_raises :
  (np_norm [0; 0] =? 0) = true
  /\ calculate_similarity (PyList [0; 0]) (PyList [1])
     = Raise (ValueError "shapes not aligned")
  /\ calculate_similarity (PyList two_ones) (PyList [0; 0])
     = Raise (ValueError "shapes not aligned").
Proof. repeat split; vm_compute; reflexivity. Qed.

(** C7, amended: if either vector is empty or absent, or the two
    vectors have the same length and either norm is exactly zero, the
    score is returned and is 0.0, which is not NaN. *)
Theorem degenerate_similarity_is_zero (embedding1 embedding2 : pyval) :
  falsy embedding1 = true \/ falsy embedding2 = true
  \/ (List.length (components embedding1) = List.length (components embedding2)
      /\ ((np_norm (components embedding1) =? 0) = true
          \/ (np_norm (components embedding2) =? 0) = true)) ->
  calculate_similarity embedding1 embedding2 = Ok 0
  /\ PrimFloat.is_nan 0 = false.
Proof.
  intros H. split; [ | reflexivity].
  unfold calculate_similarity.
  destruct (falsy embedding1) eqn:F1; [reflexivity | ].
  destruct (falsy embedding2) eqn:F2; [reflexivity | ].
  destruct H as [H | [H | [Hlen H]]]; try discriminate.
  cbn [orb]. unfold np_dot. rewrite Hlen, Nat.eqb_refl. cbn [Py.bind].
  destruct H as [-> | ->]; [reflexivity | ].
  now rewrite orb_true_r.
Qed.

Lemma degenerate_similarity_is_zero_witness :
  (falsy (PyList [0; 0]) = true \/ falsy (PyList [3; 4]) = true
   \/ (List.length (components (PyList [0; 0]))
       = List.length (components (PyList [3; 4]))
       /\ ((np_norm (components (PyList [0; 0])) =? 0) = true
           \/ (np_norm (components (PyList [3; 4])) =? 0) = true)))
  /\ calculate_similarity (PyList [0; 0]) (PyList [3; 4]) = Ok 0
  /\ PrimFloat.is_nan 0 = false.
Proof.
  assert (falsy (PyList [0; 0]) = true \/ falsy (PyList [3; 4]) = true
          \/ (List.length (components (PyList [0; 0]))
              = List.length (components (PyList [3; 4]))
              /\ ((np_norm (components (PyList [0; 0])) =? 0) = true
                  \/ (np_norm (components (PyList [3; 4])) =? 0) = true))) as H.
  { right. right. split; [reflexivity | left; vm_compute; reflexivity]. }
  split; [exact H | ].
  exact (degenerate_similarity_is_zero (PyList [0; 0]) (PyList [3; 4]) H).
Defined.




End SimilarityClaims.

(** ** The scan of the corpus *)

Section Scan.

Variable field : photo -> option pyval.
Variable q : pyval.

(** The scorer returns or raises [shapes_not_aligned]. *)
Lemma calculate_similarity_cases (embedding1 embedding2 : pyval) :
  (exists sim, calculate_similarity embedding1 embedding2 = Ok sim)
  \/ calculate_similarity embedding1 embedding2 = Raise shapes_not_aligned.
Proof.
  unfold calculate_similarity, np_dot.
  destruct (falsy embedding1 || falsy embedding2); [left; eauto | ].
  destruct (_ =? _)%nat; [ | right; reflexivity].
  cbn [Py.bind]. destruct (_ || _); left; eauto.
Qed.

Lemma calculate_similarity_wrong_dimension (embedding : pyval) :
  wrong_dimension q embedding ->
  calculate_similarity q embedding = Raise shapes_not_aligned.
Proof.
  intros (Hq & He & Hlen). unfold calculate_similarity, np_dot.
  rewrite Hq, He. cbn [orb].
  destruct (Nat.eqb_spec (List.length (components q))
                         (List.length (components embedding))) as [E | E];
    [congruence | reflexivity].
Qed.

(** The results built so far stay in front. *)
Lemma scan_results (photos : list photo) :
  forall results,
    scan field q photos results
    = (found <- scan field q photos [] ;; Ok (results ++ found)).
Proof.
  induction photos as [ | p photos IH]; intros results; simpl.
  - now rewrite app_nil_r.
  - destruct (field p) as [embedding | ]; [ | apply IH].
    destruct (calculate_similarity q embedding) as [sim | e | ]; simpl; auto.
    destruct (min_similarity <? sim)%float; [ | apply IH].
    rewrite (IH (results ++ _)), (IH [_]).
    destruct (scan field q photos []); simpl; auto.
    now rewrite <- app_assoc.
Qed.

Lemma scan_app (before after : list photo) :
  forall results,
    scan field q (before ++ after) results
    = (found <- scan field q before results ;; scan field q after found).
Proof.
  induction before as [ | p before IH]; intros results; simpl; auto.
  destruct (field p) as [embedding | ]; [ | apply IH].
  destruct (calculate_similarity q embedding) as [sim | e | ]; simpl; auto.
  destruct (min_similarity <? sim)%float; apply IH.
Qed.

(** A photo without the field leaves the scan as it is. *)
Lemma scan_skips (before after : list photo) (p : photo) :
  field p = None ->
  forall results,
    scan field q (before ++ p :: after) results
    = scan field q (before ++ after) results.
Proof.
  intros Hp results. rewrite !scan_app.
  destruct (scan field q before results); simpl; auto.
  now rewrite Hp.
Qed.

(** On a scorable corpus the scan returns the qualifying entries. *)
Lemma scan_qualifying (photos : list photo) :
  scorable field q photos ->
  scan field q photos [] = Ok (qualifying field q photos).
Proof.
  induction 1 as [ | p photos Hp _ IH]; [reflexivity | ].
  cbn [scan qualifying flat_map]. unfold score at 1.
  destruct (field p) as [embedding | ]; [ | exact IH].
  destruct (Hp embedding eq_refl) as [sim Hsim]. rewrite Hsim. cbn [Py.bind].
  destruct (min_similarity <? sim)%float; [ | exact IH].
  rewrite scan_results, IH. reflexivity.
Qed.

(** One record of the wrong dimension makes the whole scan raise. *)
Lemma scan_wrong_dimension (photos : list photo) :
  Exists (fun p => exists embedding,
              field p = Some embedding /\ wrong_dimension q embedding) photos ->
  forall results, scan field q photos results = Raise shapes_not_aligned.
Proof.
  induction photos as [ | p photos IH]; intros Hex results.
  - inversion Hex.
  - simpl. destruct (field p) as [embedding | ] eqn:Hp.
    + destruct (calculate_similarity_cases q embedding) as [[sim Hsim] | Hraise].
      * rewrite Hsim. cbn [Py.bind].
        assert (Exists (fun p => exists embedding,
                          field p = Some embedding /\ wrong_dimension q embedding)
                       photos) as Htail.
        { inversion Hex as [? ? (e' & He' & Hbad) | ]; subst; auto.
          rewrite Hp in He'. injection He' as <-.
          rewrite (calculate_similarity_wrong_dimension _ Hbad) in Hsim.
          discriminate. }
        destruct (min_similarity <? sim)%float; apply IH; exact Htail.
      * rewrite Hraise. reflexivity.
    + apply IH. inversion Hex as [? ? (e' & He' & _) | ]; subst; auto.
      congruence.
Qed.

(** Every qualifying entry has a similarity that is a number. *)
Lemma qualifying_not_nan (photos : list photo) :
  Forall (fun x => not_nan (similarity x)) (qualifying field q photos).
Proof.
  induction photos as [ | p photos IH]; cbn [qualifying flat_map]; [constructor | ].
  apply Forall_app. split; [ | exact IH].
  destruct (score field q p) as [sim | ]; [ | constructor].
  destruct (min_similarity <? sim)%float eqn:E; constructor; [ | constructor].
  cbn [make_photo_data similarity].
  apply round3_not_nan. exact (ltb_not_nan_r _ _ E).
Qed.

End Scan.

(** ** The sort *)

Section Sort.

Lemma insert_desc_perm (x : photo_data) (l : list photo_data) :
  Permutation (insert_desc x l) (x :: l).
Proof.
  induction l as [ | y l IH]; simpl; auto.
  destruct (similarity x <? similarity y)%float; auto.
  rewrite IH. apply perm_swap.
Qed.

Lemma sort_reverse_perm (l : list photo_data) : Permutation (sort_reverse l) l.
Proof.
  induction l as [ | x l IH]; simpl; auto.
  rewrite insert_desc_perm. now constructor.
Qed.

Lemma insert_desc_sorted (x : photo_data) (l : list photo_data) :
  not_nan (similarity x) ->
  Forall (fun y => not_nan (similarity y)) l ->
  Sorted descending l -> Sorted descending (insert_desc x l).
Proof.
  intros Hx. induction l as [ | y l IH]; intros Hl Hs; simpl.
  - repeat constructor.
  - inversion Hl as [ | ? ? Hy Hl']; subst.
    inversion Hs as [ | ? ? Hs' Hhd]; subst.
    destruct (similarity x <? similarity y)%float eqn:E.
    + constructor; [apply IH; assumption | ].
      destruct l as [ | z l]; simpl.
      * constructor. apply ltb_leb. exact E.
      * destruct (similarity x <? similarity z)%float.
        -- inversion Hhd; subst. constructor. assumption.
        -- constructor. apply ltb_leb. exact E.
    + constructor; [assumption | ].
      constructor. apply not_ltb_leb; assumption.
Qed.

Lemma sort_reverse_sorted (l : list photo_data) :
  Forall (fun y => not_nan (similarity y)) l -> Sorted descending (sort_reverse l).
Proof.
  induction 1 as [ | x l Hx Hl IH]; simpl; [constructor | ].
  apply insert_desc_sorted; auto.
  eapply Permutation_Forall; [ | exact Hl].
  symmetry. apply sort_reverse_perm.
Qed.

Lemma insert_desc_stable (k : float) (x : photo_data) (l : list photo_data) :
  with_similarity k (insert_desc x l) = with_similarity k (x :: l).
Proof.
  unfold with_similarity.
  induction l as [ | y l IH]; [reflexivity | ].
  cbn [insert_desc]. destruct (similarity x <? similarity y)%float eqn:E; [ | reflexivity].
  cbn [filter] in *. rewrite IH.
  destruct (similarity x =? k)%float eqn:Ex; [ | reflexivity].
  destruct (similarity y =? k)%float eqn:Ey; [ | reflexivity].
  rewrite (eqb_ltb _ _ _ Ex Ey) in E. discriminate.
Qed.

(** Entries of equal similarity keep the order they had. *)
Lemma sort_reverse_stable (k : float) (l : list photo_data) :
  with_similarity k (sort_reverse l) = with_similarity k l.
Proof.
  induction l as [ | x l IH]; [reflexivity | ].
  cbn [sort_reverse fold_right]. rewrite insert_desc_stable.
  unfold with_similarity in *. cbn [filter]. fold (sort_reverse l).
  now rewrite IH.
Qed.

End Sort.

(** ** The handlers *)

Section Handlers.

(** Both handlers, once the query embedding is known. *)
Lemma run_embedded (env : provider) (photos : list photo) (call : search_call)
  (limit : Z) (q : pyval) :
  accepted call -> embed env call = Ok q ->
  run env photos call limit
  = try_except
      (results <- scan (field_of call) q photos [] ;;
       Ok (rank (echo call) results limit))
      (fun e => ServerError (failure call) e).
Proof.
  destruct call as [query | image_data description]; simpl; intros Hacc Hq.
  - unfold search_by_text. rewrite Hq.
    destruct query; [congruence | reflexivity].
  - unfold search_by_image. rewrite Hq. reflexivity.
Qed.

End Handlers.

Section SearchClaims.

Local Open Scope float_scope.

(** C1, as stated, fails: the photo [tenth] scores exactly the
    threshold against [unit_query] (dot product 1, norms 1 and 10), so
    its score is greater than or equal to the threshold, and it is
    left out of the results of both searches. *)
Lemma score_at_threshold_left_out :
  score textEmbedding unit_query tenth = Some min_similarity
  /\ score imageEmbedding unit_query tenth = Some min_similarity
  /\ (min_similarity <=? min_similarity) = true
  /\ scan textEmbedding unit_query [tenth] [] = Ok []
  /\ scan imageEmbedding unit_query [tenth] [] = Ok []
  /\ run (live unit_query) [tenth] (TextSearch "photo") 20
     = Ok (Results "photo" [] 0 20).
Proof. repeat split; vm_compute; reflexivity. Qed.

(** C1, amended: a photo that has an embedding in the requested field
    and a score contributes its entry to the results before truncation,
    at its place in the corpus, if and only if the score is strictly
    greater than the threshold 0.1; otherwise it contributes nothing. *)
Theorem threshold_is_strict
  (field : photo -> option pyval) (query_embedding embedding : pyval)
  (before after : list photo) (p : photo) (sim : float)
  (found_before found_after : list photo_data) :
  field p = Some embedding ->
  calculate_similarity query_embedding embedding = Ok sim ->
  scan field query_embedding before [] = Ok found_before ->
  scan field query_embedding after [] = Ok found_after ->
  exists included,
    scan field query_embedding (before ++ p :: after) []
    = Ok (found_before ++ included ++ found_after)
    /\ (included = [make_photo_data p sim] \/ included = [])
    /\ (included = [make_photo_data p sim] <-> (min_similarity <? sim) = true).
Proof.
  intros Hp Hsim Hb Ha.
  exists (if min_similarity <? sim then [make_photo_data p sim] else []).
  split.
  - rewrite scan_app, Hb. cbn [Py.bind scan]. rewrite Hp, Hsim. cbn [Py.bind].
    destruct (min_similarity <? sim).
    + rewrite scan_results, Ha. cbn [Py.bind]. now rewrite <- app_assoc.
    + rewrite scan_results, Ha. reflexivity.
  - destruct (min_similarity <? sim); split; auto; split; auto; discriminate.
Qed.

Lemma threshold_is_strict_witness :
  textEmbedding three_fifths = Some (PyList [3; 4; 0; 0])
  /\ calculate_similarity unit_query (PyList [3; 4; 0; 0]) = Ok 0x1.3333333333333p-1
  /\ scan textEmbedding unit_query [tenth] [] = Ok []
  /\ scan textEmbedding unit_query [bare; same] [] = Ok [make_photo_data same 1]
  /\ exists included,
       scan textEmbedding unit_query ([tenth] ++ three_fifths :: [bare; same]) []
       = Ok ([] ++ included ++ [make_photo_data same 1])
       /\ (included = [make_photo_data three_fifths 0x1.3333333333333p-1]
           \/ included = [])
       /\ (included = [make_photo_data three_fifths 0x1.3333333333333p-1]
           <-> (min_similarity <? 0x1.3333333333333p-1) = true).
Proof.
  assert (textEmbedding three_fifths = Some (PyList [3; 4; 0; 0])) as H1
    by reflexivity.
  assert (calculate_similarity unit_query (PyList [3; 4; 0; 0])
          = Ok 0x1.3333333333333p-1) as H2 by (vm_compute; reflexivity).
  assert (scan textEmbedding unit_query [tenth] [] = Ok []) as H3
    by (vm_compute; reflexivity).
  assert (scan textEmbedding unit_query [bare; same] []
          = Ok [make_photo_data same 1]) as H4 by (vm_compute; reflexivity).
  split; [exact H1 | split; [exact H2 | split; [exact H3 | split; [exact H4 | ]]]].
  exact (threshold_is_strict textEmbedding unit_query (PyList [3; 4; 0; 0])
           [tenth] [bare; same] three_fifths 0x1.3333333333333p-1
           [] [make_photo_data same 1] H1 H2 H3 H4).
Defined.

(** C2, as stated, fails: with the photo [broken] (two components) in
    the corpus, the search for a four-component query answers with the
    error "Search failed" instead of ranking the other photos; the
    same holds in fallback mode, where the query has 1024 components.
    Without [broken] the other photos are ranked. *)
Lemma wrong_dimension_aborts_search :
  run (live unit_query) [same; broken; four_fifths] (TextSearch "photo") 20
  = Ok (ServerError "Search failed" (ValueError "shapes not aligned"))
  /\ run (live unit_query) [same; broken; four_fifths] (ImageSearch "data:" "") 20
     = Ok (ServerError "Image search failed" (ValueError "shapes not aligned"))
  /\ run demo_mode [ingested "red sunset"; broken] (TextSearch "red sunset") 20
     = Ok (ServerError "Search failed" (ValueError "shapes not aligned"))
  /\ run demo_mode [ingested "red sunset"] (TextSearch "red sunset") 20
     = Ok (Results "red sunset" [make_photo_data (ingested "red sunset") 1] 1 20).
Proof. repeat split; vm_compute; reflexivity. Qed.

(** C2, amended: when the query vector is not empty and the corpus
    holds a photo whose embedding in the requested field is not empty
    and has another length, the photo is not skipped: the scorer raises
    on it and the handler answers with its error reply (status 500),
    whatever the other photos and the limit. *)
Theorem wrong_dimension_fails_search
  (env : provider) (photos : list photo) (call : search_call) (limit : Z)
  (query_embedding : pyval) :
  accepted call ->
  embed env call = Ok query_embedding ->
  Exists (fun p => exists embedding,
              field_of call p = Some embedding
              /\ wrong_dimension query_embedding embedding) photos ->
  run env photos call limit
  = Ok (ServerError (failure call) (ValueError "shapes not aligned")).
Proof.
  intros Hacc Hq Hbad.
  rewrite (run_embedded env photos call limit query_embedding Hacc Hq).
  rewrite (scan_wrong_dimension _ _ photos Hbad). reflexivity.
Qed.

Lemma wrong_dimension_fails_search_witness :
  accepted (TextSearch "photo")
  /\ embed (live unit_query) (TextSearch "photo") = Ok unit_query
  /\ Exists (fun p => exists embedding,
               field_of (TextSearch "photo") p = Some embedding
               /\ wrong_dimension unit_query embedding) [same; broken; four_fifths]
  /\ run (live unit_query) [same; broken; four_fifths] (TextSearch "photo") 20
     = Ok (ServerError (failure (TextSearch "photo")) (ValueError "shapes not aligned")).
Proof.
  assert (accepted (TextSearch "photo")) as H1 by discriminate.
  assert (embed (live unit_query) (TextSearch "photo") = Ok unit_query) as H2
    by reflexivity.
  assert (Exists (fun p => exists embedding,
                    field_of (TextSearch "photo") p = Some embedding
                    /\ wrong_dimension unit_query embedding)
                 [same; broken; four_fifths]) as H3.
  { apply Exists_cons_tl, Exists_cons_hd. exists (PyList [1; 0]).
    split; [reflexivity | ]. repeat split; simpl; discriminate || lia. }
  split; [exact H1 | split; [exact H2 | split; [exact H3 | ]]].
  exact (wrong_dimension_fails_search (live unit_query) [same; broken; four_fifths]
           (TextSearch "photo") 20 unit_query H1 H2 H3).
Defined.

Lemma length_slice_to_sorted (results : list photo_data) (limit : Z) :
  (0 <= limit)%Z ->
  Py.len (Py.slice_to (sort_reverse results) limit) = Z.min limit (Py.len results).
Proof.
  intros H. rewrite slice_to_firstn by exact H. unfold Py.len.
  rewrite length_firstn, (Permutation_length (sort_reverse_perm results)). lia.
Qed.

(** C4, as stated, fails, in three ways.  (1) [four_fifths] scores 0.8
    and [just_above], after it in the corpus, scores 0.80038...; both
    entries carry the similarity 0.8, the sort leaves them in the order
    of the corpus, and a search limited to one result returns
    [four_fifths], not the photo of the higher score.  (2) With the
    limit 0 and the photo [broken] in the corpus the answer is an error,
    not an empty list.  (3) With the limit -1 the answer holds all the
    qualifying entries but the last. *)
Lemma sort_key_is_rounded_and_limit_unchecked :
  score textEmbedding unit_query four_fifths = Some 0x1.999999999999ap-1
  /\ score textEmbedding unit_query just_above = Some 0x1.99cbef2f232cdp-1
  /\ (0x1.999999999999ap-1 <? 0x1.99cbef2f232cdp-1) = true
  /\ run (live unit_query) [four_fifths; just_above] (TextSearch "photo") 2
     = Ok (Results "photo"
             [make_photo_data four_fifths 0x1.999999999999ap-1;
              make_photo_data just_above 0x1.99cbef2f232cdp-1] 2 2)
  /\ run (live unit_query) [four_fifths; just_above] (TextSearch "photo") 1
     = Ok (Results "photo" [make_photo_data four_fifths 0x1.999999999999ap-1] 1 1)
  /\ run (live unit_query) [same; broken] (TextSearch "photo") 0
     = Ok (ServerError "Search failed" (ValueError "shapes not aligned"))
  /\ run (live unit_query) gallery (TextSearch "photo") (-1)
     = Ok (Results "photo" gallery_top3 3 (-1)).
Proof. repeat split; vm_compute; reflexivity. Qed.

(** C4, amended: for a query vector against which every embedding of
    the corpus can be scored, and a limit that is not negative, the
    reply of either search carries exactly the first [limit] entries of
    a list that holds the qualifying entries, each once, in descending
    order of similarity (the score rounded to three digits, as the
    entry carries it: this is the key of the sort), entries of equal
    similarity in the order of the corpus; the result is empty, without
    error, when the limit is 0 and when the corpus is empty. *)
Theorem results_sorted_then_limited
  (env : provider) (photos : list photo) (call : search_call) (limit : Z)
  (query_embedding : pyval) :
  accepted call ->
  embed env call = Ok query_embedding ->
  scorable (field_of call) query_embedding photos ->
  (0 <= limit)%Z ->
  exists sorted results total,
    run env photos call limit = Ok (Results (echo call) results total limit)
    /\ total = Py.len results
    /\ results = firstn (Z.to_nat limit) sorted
    /\ Permutation sorted (qualifying (field_of call) query_embedding photos)
    /\ Sorted descending sorted
    /\ (forall k, with_similarity k sorted
                  = with_similarity k
                      (qualifying (field_of call) query_embedding photos))
    /\ (limit = 0%Z -> results = [])
    /\ (photos = [] -> results = []).
Proof.
  intros Hacc Hq Hscore Hlimit.
  set (cleared := qualifying (field_of call) query_embedding photos).
  exists (sort_reverse cleared), (firstn (Z.to_nat limit) (sort_reverse cleared)),
    (Py.len (firstn (Z.to_nat limit) (sort_reverse cleared))).
  split; [ | split; [reflexivity | split; [reflexivity | ]]].
  2: split; [ | split; [ | split; [ | split]]].
  - rewrite (run_embedded env photos call limit query_embedding Hacc Hq).
    rewrite (scan_qualifying _ _ photos Hscore). fold cleared.
    cbn [Py.bind try_except]. unfold rank.
    rewrite slice_to_firstn by exact Hlimit. reflexivity.
  - apply sort_reverse_perm.
  - apply sort_reverse_sorted. apply qualifying_not_nan.
  - intros k. apply sort_reverse_stable.
  - intros ->. reflexivity.
  - intros ->. subst cleared. cbn. now rewrite firstn_nil.
Qed.

Lemma results_sorted_then_limited_witness :
  accepted (TextSearch "photo")
  /\ embed (live unit_query) (TextSearch "photo") = Ok unit_query
  /\ scorable (field_of (TextSearch "photo")) unit_query gallery
  /\ (0 <= 3)%Z
  /\ exists sorted results total,
       run (live unit_query) gallery (TextSearch "photo") 3
       = Ok (Results (echo (TextSearch "photo")) results total 3)
       /\ total = Py.len results
       /\ results = firstn (Z.to_nat 3) sorted
       /\ Permutation sorted
            (qualifying (field_of (TextSearch "photo")) unit_query gallery)
       /\ Sorted descending sorted
       /\ (forall k, with_similarity k sorted
                     = with_similarity k
                         (qualifying (field_of (TextSearch "photo")) unit_query
                                     gallery))
       /\ (3%Z = 0%Z -> results = [])
       /\ (gallery = [] -> results = []).
Proof.
  assert (accepted (TextSearch "photo")) as H1 by discriminate.
  assert (embed (live unit_query) (TextSearch "photo") = Ok unit_query) as H2
    by reflexivity.
  assert (scorable (field_of (TextSearch "photo")) unit_query gallery) as H3.
  { unfold scorable, gallery.
    repeat (apply Forall_cons;
            [intros embedding H; simpl in H; try discriminate;
             injection H as <-; eexists; vm_compute; reflexivity | ]).
    apply Forall_nil. }
  assert (0 <= 3)%Z as H4 by lia.
  split; [exact H1 | split; [exact H2 | split; [exact H3 | split; [exact H4 | ]]]].
  exact (results_sorted_then_limited (live unit_query) gallery (TextSearch "photo")
           3 unit_query H1 H2 H3 H4).
Defined.

(** C5: a photo without an embedding in the requested field is never
    scored and never appears: each search answers exactly as it does
    on the corpus without that photo, whatever the limit and the other
    photos. *)
Theorem absent_field_is_skipped
  (env : provider) (before after : list photo) (p : photo)
  (call : search_call) (limit : Z) :
  field_of call p = None ->
  run env (before ++ p :: after) call limit = run env (before ++ after) call limit.
Proof.
  intros Hp. destruct call as [query | image_data description]; simpl in *.
  - unfold search_by_text. destruct query; [reflexivity | ].
    destruct (generate_text_embedding env _); simpl; auto.
    now rewrite (scan_skips textEmbedding _ before after p Hp).
  - unfold search_by_image.
    destruct (generate_image_embedding env _ _); simpl; auto.
    now rewrite (scan_skips imageEmbedding _ before after p Hp).
Qed.

Lemma absent_field_is_skipped_witness :
  field_of (ImageSearch "data:" "sunset") bare = None
  /\ run (live unit_query) ([tenth; three_fifths] ++ bare :: [four_fifths; same])
         (ImageSearch "data:" "sunset") 20
     = run (live unit_query) ([tenth; three_fifths] ++ [four_fifths; same])
           (ImageSearch "data:" "sunset") 20.
Proof.
  assert (field_of (ImageSearch "data:" "sunset") bare = None) as H by reflexivity.
  split; [exact H | ].
  exact (absent_field_is_skipped (live unit_query) [tenth; three_fifths]
           [four_fifths; same] bare (ImageSearch "data:" "sunset") 20 H).
Defined.

(** C10, as stated, fails: with the limit -1 the reply over [gallery]
    is successful and its [totalResults] is 3, which is not at most the
    limit. *)
Lemma total_results_exceeds_negative_limit :
  run (live unit_query) gallery (TextSearch "photo") (-1)
  = Ok (Results "photo" gallery_top3 3 (-1))
  /\ (3 <=? -1)%Z = false.
Proof. split; vm_compute; reflexivity. Qed.

(** C10, amended: in a successful reply of either search,
    [totalResults] is the length of the result list after truncation
    and the echoed limit is the requested one; for a limit that is not
    negative it is at most the limit: the smaller of the limit and the
    number of entries that cleared the threshold, not that number; for
    a negative limit it is that number less the absolute value of the
    limit, or 0. *)
Theorem total_results_counts_truncated_list
  (env : provider) (photos : list photo) (call : search_call) (limit : Z)
  (query : string) (results : list photo_data) (totalResults limit' : Z) :
  run env photos call limit = Ok (Results query results totalResults limit') ->
  totalResults = Py.len results
  /\ limit' = limit
  /\ exists query_embedding cleared,
       embed env call = Ok query_embedding
       /\ scan (field_of call) query_embedding photos [] = Ok cleared
       /\ ((0 <= limit)%Z ->
           (totalResults <= limit)%Z
           /\ totalResults = Z.min limit (Py.len cleared))
       /\ ((limit < 0)%Z -> totalResults = Z.max 0 (Py.len cleared + limit)).
Proof.
  intros Hrun.
  assert (forall (q : pyval) (echoed err : string),
             embed env call = Ok q ->
             try_except
               (found <- scan (field_of call) q photos [] ;;
                Ok (rank echoed found limit))
               (fun e => ServerError err e)
             = Ok (Results query results totalResults limit') ->
             totalResults = Py.len results /\ limit' = limit
             /\ exists query_embedding cleared,
                  embed env call = Ok query_embedding
                  /\ scan (field_of call) query_embedding photos [] = Ok cleared
                  /\ ((0 <= limit)%Z ->
                      (totalResults <= limit)%Z
                      /\ totalResults = Z.min limit (Py.len cleared))
                  /\ ((limit < 0)%Z ->
                      totalResults = Z.max 0 (Py.len cleared + limit))) as Hcore.
  { intros q echoed err Hq H.
    destruct (scan (field_of call) q photos []) as [cleared | e | ] eqn:Hscan;
      simpl in H; try discriminate.
    unfold rank in H. injection H as _ <- <- <-.
    split; [reflexivity | split; [reflexivity | ]].
    exists q, cleared. split; [exact Hq | split; [exact Hscan | split]].
    - intros Hlimit. rewrite (length_slice_to_sorted cleared limit Hlimit). lia.
    - intros Hlimit. unfold Py.slice_to, Py.len.
      destruct (0 <=? limit)%Z eqn:E; [lia | ].
      rewrite length_firstn, (Permutation_length (sort_reverse_perm cleared)). lia. }
  destruct call as [text | image_data description]; simpl in Hrun.
  - unfold search_by_text in Hrun.
    destruct text as [ | c text]; [discriminate | ].
    destruct (generate_text_embedding env (String c text)) as [q | e | ] eqn:Hq;
      try discriminate.
    exact (Hcore q _ _ Hq Hrun).
  - unfold search_by_image in Hrun.
    destruct (generate_image_embedding env image_data description)
      as [q | e | ] eqn:Hq; try discriminate.
    exact (Hcore q _ _ Hq Hrun).
Qed.

Lemma total_results_counts_truncated_list_witness :
  run (live unit_query) gallery (TextSearch "photo") 3
  = Ok (Results "photo" gallery_top3 3 3)
  /\ 3%Z = Py.len gallery_top3
  /\ 3%Z = 3%Z
  /\ exists query_embedding cleared,
       embed (live unit_query) (TextSearch "photo") = Ok query_embedding
       /\ scan (field_of (TextSearch "photo")) query_embedding gallery [] = Ok cleared
       /\ ((0 <= 3)%Z ->
           (3 <= 3)%Z /\ 3%Z = Z.min 3 (Py.len cleared))
       /\ ((3 < 0)%Z -> 3%Z = Z.max 0 (Py.len cleared + 3)).
Proof.
  assert (run (live unit_query) gallery (TextSearch "photo") 3
          = Ok (Results "photo" gallery_top3 3 3)) as H
    by (vm_compute; reflexivity).
  split; [exact H | ].
  exact (total_results_counts_truncated_list (live unit_query) gallery
           (TextSearch "photo") 3 "photo" gallery_top3 3 3 H).
Defined.

End SearchClaims.

(** * More facts *)

(** ** File names *)

Section FileNames.

Local Open Scope string_scope.

Lemma rsplit_dot_without_dot (s : string) :
  contains_dot s = false -> rsplit_dot s = [s].
Proof.
  induction s as [ | c s IH]; [reflexivity | ]. cbn [contains_dot rsplit_dot].
  intros H. apply orb_false_iff in H. destruct H as [Hc Hs].
  rewrite (IH Hs), Hc. reflexivity.
Qed.

Lemma rsplit_dot_with_dot (s : string) :
  contains_dot s = true ->
  exists before after,
    rsplit_dot s = [before; after]
    /\ s = before ++ "." ++ after /\ contains_dot after = false.
Proof.
  induction s as [ | c s IH]; [discriminate | ]. cbn [contains_dot rsplit_dot].
  intros H. destruct (contains_dot s) eqn:Hs.
  - destruct (IH eq_refl) as (before & after & -> & -> & Hafter).
    exists (String c before), after. repeat split; auto.
  - rewrite orb_false_r in H. rewrite (rsplit_dot_without_dot s Hs), H.
    exists "", s. repeat split; auto.
    apply Ascii.eqb_eq in H. now subst.
Qed.

Lemma contains_dot_app (s t : string) :
  contains_dot (s ++ t) = contains_dot s || contains_dot t.
Proof.
  induction s as [ | c s IH]; [reflexivity | ]. cbn. rewrite IH. now rewrite orb_assoc.
Qed.

Lemma rsplit_dot_app (stem extension : string) :
  contains_dot extension = false ->
  rsplit_dot (stem ++ "." ++ extension) = [stem; extension].
Proof.
  intros H. induction stem as [ | c stem IH].
  - cbn. now rewrite (rsplit_dot_without_dot extension H).
  - cbn [String.append rsplit_dot]. cbn [String.append] in IH. now rewrite IH.
Qed.

Lemma existsb_eqb_In (s : string) (l : list string) :
  existsb (String.eqb s) l = true <-> In s l.
Proof.
  rewrite existsb_exists. split.
  - intros (x & Hx & E). apply String.eqb_eq in E. now subst.
  - intros H. exists s. split; [exact H | apply String.eqb_refl].
Qed.

(** X1: a file name is allowed exactly when it reads [stem.extension],
    the extension without a dot (so: what follows the last dot), and
    the extension in lower case is png, jpg, jpeg or webp; the stem may
    be empty or hold other dots. *)
Theorem allowed_file_iff (name : string) :
  allowed_file name = true
  <-> exists stem extension,
        name = stem ++ "." ++ extension
        /\ contains_dot extension = false
        /\ In (lower extension) ["png"; "jpg"; "jpeg"; "webp"].
Proof.
  unfold allowed_file. split.
  - intros H. apply andb_true_iff in H. destruct H as [Hdot Hext].
    destruct (rsplit_dot_with_dot name Hdot) as (stem & extension & Hs & -> & Hno).
    rewrite Hs in Hext. exists stem, extension. repeat split; auto.
    now apply existsb_eqb_In.
  - intros (stem & extension & -> & Hno & Hin).
    rewrite (rsplit_dot_app stem extension Hno), contains_dot_app.
    assert (contains_dot ("." ++ extension) = true) as -> by reflexivity.
    rewrite orb_true_r. cbn [andb]. now apply existsb_eqb_In.
Qed.

End FileNames.

(** ** The scorer *)

Section Scorer.

Lemma SFmul_comm (a b : spec_float) : SFmul prec emax a b = SFmul prec emax b a.
Proof.
  destruct a as [s1 | s1 | | s1 m1 e1], b as [s2 | s2 | | s2 m2 e2]; simpl;
    rewrite ?(xorb_comm s1 s2); try reflexivity.
  now rewrite (Pos.mul_comm m1 m2), (Z.add_comm e1 e2).
Qed.

Local Open Scope float_scope.

Lemma float_mul_comm (x y : float) : x * y = y * x.
Proof. apply Prim2SF_inj. rewrite !mul_spec. apply SFmul_comm. Qed.

Lemma dot_product_comm (vec1 vec2 : list float) :
  dot_product vec1 vec2 = dot_product vec2 vec1.
Proof.
  unfold dot_product. generalize 0. revert vec2.
  induction vec1 as [ | x vec1 IH]; intros [ | y vec2] acc; try reflexivity.
  cbn. rewrite (float_mul_comm x y). apply IH.
Qed.

(** X2: the score is symmetric in its two arguments: the same float,
    or the same exception. *)
Theorem calculate_similarity_symmetric (embedding1 embedding2 : pyval) :
  calculate_similarity embedding1 embedding2
  = calculate_similarity embedding2 embedding1.
Proof.
  unfold calculate_similarity, np_dot.
  rewrite (orb_comm (falsy embedding1)).
  destruct (falsy embedding2 || falsy embedding1); [reflexivity | ].
  rewrite (Nat.eqb_sym (List.length (components embedding1))).
  destruct (_ =? _)%nat; [ | reflexivity]. cbn [Py.bind].
  rewrite (orb_comm (np_norm (components embedding1) =? 0)).
  rewrite (dot_product_comm (components embedding1)).
  rewrite (float_mul_comm (np_norm (components embedding1))).
  reflexivity.
Qed.

(** X3: the scorer raises exactly when both vectors are non-empty and
    their lengths differ, and what it raises is the exception of
    [np.dot]; in every other case it returns a float. *)
Theorem calculate_similarity_raises_iff (embedding1 embedding2 : pyval) :
  (calculate_similarity embedding1 embedding2
   = Raise (ValueError "shapes not aligned")
   <-> falsy embedding1 = false /\ falsy embedding2 = false
       /\ List.length (components embedding1)
          <> List.length (components embedding2))
  /\ ((exists sim, calculate_similarity embedding1 embedding2 = Ok sim)
      <-> falsy embedding1 = true \/ falsy embedding2 = true
          \/ List.length (components embedding1)
             = List.length (components embedding2)).
Proof.
  unfold calculate_similarity, np_dot.
  destruct (falsy embedding1) eqn:F1; cbn [orb].
  { split; split; try discriminate; eauto. intros (H & _); discriminate. }
  destruct (falsy embedding2) eqn:F2; cbn [orb].
  { split; split; try discriminate; eauto. intros (_ & H & _); discriminate. }
  destruct (Nat.eqb_spec (List.length (components embedding1))
                         (List.length (components embedding2))) as [E | E];
    cbn [Py.bind].
  - destruct (_ || _); split; split; try discriminate; eauto;
      intros (_ & _ & H); contradiction.
  - split; split; auto.
    + intros [sim H]. discriminate.
    + intros [H | [H | H]]; try discriminate. contradiction.
Qed.

End Scorer.

(** ** The fallback vector, for every dimension *)

Section MockVector.

(** The loop keeps a list that repeats [base]: as long as its length is
    a multiple of the length of [base], or the loop is over. *)
Lemma extend_loop_repeats (base : list float) (fuel : nat) :
  forall (embedding : list float) (dimension : Z),
    embedding <> [] ->
    (forall i, (i < List.length embedding)%nat ->
               nth_error embedding i = nth_error base (i mod List.length base)) ->
    (exists k, List.length embedding = (k * List.length base)%nat)
    \/ dimension <= Py.len embedding ->
    dimension <= Z.of_nat fuel + Py.len embedding ->
    exists r, extend_loop fuel embedding dimension = Ok r
              /\ dimension <= Py.len r
              /\ (dimension <= Py.len embedding -> r = embedding)
              /\ forall i, (i < List.length r)%nat ->
                           nth_error r i = nth_error base (i mod List.length base).
Proof.
  induction fuel as [ | fuel IH]; intros embedding dimension Hne Hrep Hlen Hfuel.
  - simpl. destruct (Py.len embedding <? dimension) eqn:E; [lia | ].
    exists embedding. repeat split; auto; lia.
  - simpl. destruct (Py.len embedding <? dimension) eqn:E.
    2: { exists embedding. repeat split; auto; lia. }
    destruct Hlen as [[k Hk] | Hlen]; [ | lia].
    set (n := Z.min (Py.len embedding) (dimension - Py.len embedding)).
    assert (1 <= Py.len embedding) as Hpos.
    { unfold Py.len. destruct embedding; [congruence | simpl; lia]. }
    assert (1 <= n <= Py.len embedding) as Hn by (unfold n; lia).
    rewrite slice_to_firstn by lia.
    destruct (IH (embedding ++ firstn (Z.to_nat n) embedding) dimension)
      as (r & Hr & Hdim & _ & Hper).
    + destruct embedding; [congruence | discriminate].
    + intros i Hi. rewrite length_app, length_firstn in Hi.
      destruct (Nat.lt_ge_cases i (List.length embedding)) as [Hlt | Hge].
      * rewrite nth_error_app1 by exact Hlt. apply Hrep. exact Hlt.
      * rewrite nth_error_app2 by exact Hge. rewrite nth_error_firstn.
        destruct (Nat.ltb_spec (i - List.length embedding) (Z.to_nat n)) as [Hin | Hout].
        -- rewrite Hrep by (unfold Py.len in *; lia).
           f_equal.
           replace i with (i - List.length embedding + k * List.length base)%nat
             at 2 by lia.
           now rewrite Nat.Div0.mod_add.
        -- unfold Py.len in *. lia.
    + unfold Py.len, n in *. rewrite length_app, length_firstn.
      destruct (Z.le_ge_cases (Z.of_nat (List.length embedding))
                              (dimension - Z.of_nat (List.length embedding)))
        as [Hsmall | Hbig].
      * left. exists (2 * k)%nat. rewrite <- Nat.mul_assoc, <- Hk.
        unfold Py.len. lia.
      * right. unfold Py.len. lia.
    + unfold Py.len in *. rewrite length_app, length_firstn. lia.
    + exists r. repeat split; auto. intros H. lia.
Qed.

Lemma mock_embedding_repeats (text : string) (dimension : Z) :
  has_surrogate text = false ->
  exists r,
    generate_mock_embedding text dimension = Ok (Py.slice_to r dimension)
    /\ dimension <= Py.len r
    /\ (dimension <= 16 -> r = map normalize (MD5.digest (utf8 text)))
    /\ forall i, (i < List.length r)%nat ->
         nth_error r i
         = option_map normalize (nth_error (MD5.digest (utf8 text)) (i mod 16)).
Proof.
  intros Henc.
  unfold generate_mock_embedding, MD5.hexdigest.
  rewrite (encode_without_surrogate text Henc). cbn [Py.bind].
  rewrite hex_pairs_hexdigest, (parse_hex_bytes _ (digest_bytes _)).
  cbn [Py.bind].
  pose proof (digest_length (utf8 text)) as Hl.
  set (base := map normalize (MD5.digest (utf8 text))).
  assert (List.length base = 16%nat) as Hb by (unfold base; now rewrite length_map).
  destruct (extend_loop_repeats base (Z.to_nat dimension) base dimension)
    as (r & Hr & Hdim & Hsame & Hper).
  - destruct base; discriminate.
  - intros i Hi. rewrite Hb in *. now rewrite Nat.mod_small.
  - left. exists 1%nat. lia.
  - unfold Py.len. lia.
  - rewrite Hr. cbn [Py.bind]. exists r. repeat split; auto.
    + intros H. apply Hsame. unfold Py.len. lia.
    + intros i Hi. rewrite (Hper i Hi), Hb. unfold base. apply nth_error_map.
Qed.

(** X4: for every dimension, the fallback provider returns on every
    input string that can be encoded as UTF-8, and raises
    [UnicodeEncodeError] on a string with a lone surrogate; for a
    dimension that is not negative the vector has exactly that many
    components (none for 0, the first ones of the digest below 16), and
    for a negative one [embedding[:dimension]] drops that many of the
    16 components of the digest. *)
Theorem mock_embedding_length (text : string) (dimension : Z) :
  (has_surrogate text = false ->
   exists v, generate_mock_embedding text dimension = Ok v
             /\ (0 <= dimension -> Py.len v = dimension)
             /\ (dimension < 0 -> Py.len v = Z.max 0 (16 + dimension)))
  /\ (has_surrogate text = true ->
      generate_mock_embedding text dimension
      = Raise (UnicodeEncodeError
                 "'utf-8' codec can't encode character: surrogates not allowed")).
Proof.
  split; [ | apply generate_mock_embedding_raises].
  intros Henc.
  destruct (mock_embedding_repeats text dimension Henc) as (r & Hv & Hdim & Hsame & _).
  exists (Py.slice_to r dimension). split; [exact Hv | split]; intros H.
  - rewrite slice_to_firstn by exact H. unfold Py.len in *.
    rewrite length_firstn. lia.
  - rewrite (Hsame ltac:(lia)). unfold Py.slice_to, Py.len.
    destruct (0 <=? dimension) eqn:E; [lia | ].
    rewrite length_firstn, length_map, digest_length. lia.
Qed.

(** X5: on an input string that can be encoded as UTF-8 the fallback
    vector is the sixteen values of the digest bytes, repeated: for a
    dimension that is not negative, its component [i] is [b/255 - 0.5]
    for the byte [b] of the digest at place [i mod 16]. *)
Theorem mock_embedding_periodic (text : string) (dimension : Z) :
  has_surrogate text = false ->
  0 <= dimension ->
  exists v, generate_mock_embedding text dimension = Ok v
            /\ forall i, (i < Z.to_nat dimension)%nat ->
                 nth_error v i
                 = option_map normalize
                     (nth_error (MD5.digest (utf8 text)) (i mod 16)).
Proof.
  intros Henc Hd.
  destruct (mock_embedding_repeats text dimension Henc) as (r & Hv & Hdim & _ & Hper).
  exists (Py.slice_to r dimension). split; [exact Hv | ].
  intros i Hi. rewrite slice_to_firstn by exact Hd.
  rewrite nth_error_firstn.
  destruct (Nat.ltb_spec i (Z.to_nat dimension)) as [_ | Hge]; [ | lia].
  apply Hper. unfold Py.len in Hdim. lia.
Qed.

Lemma mock_embedding_periodic_witness :
  has_surrogate "red sunset" = false
  /\ 0 <= 40
  /\ exists v, generate_mock_embedding "red sunset" 40 = Ok v
               /\ forall i, (i < Z.to_nat 40)%nat ->
                    nth_error v i
                    = option_map normalize
                        (nth_error (MD5.digest (utf8 "red sunset")) (i mod 16)).
Proof.
  assert (has_surrogate "red sunset" = false) as H0 by reflexivity.
  assert (0 <= 40) as H by lia.
  split; [exact H0 | split; [exact H | ]].
  exact (mock_embedding_periodic "red sunset" 40 H0 H).
Defined.

End MockVector.

(** ** The providers and the handlers, whatever happens *)

Section AlwaysAnswer.

(** What embedding a call gives when the endpoint is not asked or
    fails: what the fallback provider gives. *)
Lemma embed_fallback (env : provider) (call : search_call) :
  no_api_key env = true \/ (exists e, voyage_post env (request_of call) = Raise e) ->
  embed env call
  = (e <- generate_mock_embedding (text_of call) default_dimension ;; Ok (PyList e)).
Proof.
  intros H. destruct call as [query | image_data description]; simpl;
    [unfold generate_text_embedding | unfold generate_image_embedding];
    (destruct (no_api_key env); [reflexivity | ]);
    (destruct H as [H | [e H]]; [discriminate | ]);
    simpl in H; rewrite H; reflexivity.
Qed.

(** An embedding, or the exception of [str.encode], or, when the
    endpoint stalls, nothing. *)
Lemma embed_cases (env : provider) (call : search_call) :
  (exists q, embed env call = Ok q)
  \/ (embed env call = Raise surrogates_not_allowed /\ has_surrogate (text_of call) = true)
  \/ (embed env call = Diverge
      /\ no_api_key env = false /\ voyage_post env (request_of call) = Diverge).
Proof.
  destruct (no_api_key env) eqn:Hkey.
  - rewrite (embed_fallback env call (or_introl Hkey)).
    destruct (has_surrogate (text_of call)) eqn:Hs.
    + right. left. rewrite (generate_mock_embedding_raises _ _ Hs). auto.
    + left. destruct (generate_mock_embedding_returns _ Hs) as (v & -> & _).
      simpl. eauto.
  - destruct (voyage_post env (request_of call)) as [q | e | ] eqn:Hpost.
    + left. exists q.
      destruct call as [query | image_data description]; simpl in *;
        [unfold generate_text_embedding | unfold generate_image_embedding];
        now rewrite Hkey, Hpost.
    + rewrite (embed_fallback env call (or_intror (ex_intro _ e Hpost))).
      destruct (has_surrogate (text_of call)) eqn:Hs.
      * right. left. rewrite (generate_mock_embedding_raises _ _ Hs). auto.
      * left. destruct (generate_mock_embedding_returns _ Hs) as (v & -> & _).
        simpl. eauto.
    + right. right. split; [ | auto].
      destruct call as [query | image_data description]; simpl in *;
        [unfold generate_text_embedding | unfold generate_image_embedding];
        now rewrite Hkey, Hpost.
Qed.

(** X6: when no credential is set or the live call raises, both
    providers give exactly what fallback mode gives: a vector of 1024
    components for a text that can be encoded as UTF-8, and the
    [UnicodeEncodeError] of [text.encode()], which leaves the function,
    for a text with a lone surrogate. *)
Theorem failed_live_call_falls_back
  (env : provider) (text image_data description : string) :
  (no_api_key env = true \/ (exists e, voyage_post env [text_content text] = Raise e) ->
   generate_text_embedding env text = generate_text_embedding demo_mode text
   /\ (has_surrogate text = false ->
       exists v, generate_text_embedding env text = Ok (PyList v)
                 /\ Py.len v = 1024)
   /\ (has_surrogate text = true ->
       generate_text_embedding env text
       = Raise (UnicodeEncodeError
                  "'utf-8' codec can't encode character: surrogates not allowed")))
  /\ (no_api_key env = true
      \/ (exists e,
            voyage_post env
              (match description with
               | EmptyString => []
               | _ => [text_content description]
               end ++ [image_base64_content image_data]) = Raise e) ->
      generate_image_embedding env image_data description
      = generate_image_embedding demo_mode image_data description
      /\ (has_surrogate description = false ->
          exists v, generate_image_embedding env image_data description = Ok (PyList v)
                    /\ Py.len v = 1024)
      /\ (has_surrogate description = true ->
          generate_image_embedding env image_data description
          = Raise (UnicodeEncodeError
                     "'utf-8' codec can't encode character: surrogates not allowed"))).
Proof.
  split; intros H.
  - pose proof (embed_fallback env (TextSearch text) H) as He.
    pose proof (embed_fallback demo_mode (TextSearch text) (or_introl eq_refl)) as Hd.
    simpl in He, Hd. rewrite He, Hd. split; [reflexivity | split]; intros Hs.
    + destruct (generate_mock_embedding_returns text Hs) as (v & -> & Hlen & _).
      exists v. split; [reflexivity | ]. unfold Py.len. now rewrite Hlen.
    + now rewrite (generate_mock_embedding_raises _ _ Hs).
  - pose proof (embed_fallback env (ImageSearch image_data description) H) as He.
    pose proof (embed_fallback demo_mode (ImageSearch image_data description)
                  (or_introl eq_refl)) as Hd.
    simpl in He, Hd. rewrite He, Hd. split; [reflexivity | split]; intros Hs;
      rewrite <- combined_text_surrogate in Hs.
    + destruct (generate_mock_embedding_returns _ Hs) as (v & -> & Hlen & _).
      exists v. split; [reflexivity | ]. unfold Py.len. now rewrite Hlen.
    + now rewrite (generate_mock_embedding_raises _ _ Hs).
Qed.

(** The scan returns or raises what the scorer raises; it never
    hangs. *)
Lemma scan_cases (field : photo -> option pyval) (q : pyval) (photos : list photo) :
  forall results,
    (exists found, scan field q photos results = Ok found)
    \/ scan field q photos results = Raise shapes_not_aligned.
Proof.
  induction photos as [ | p photos IH]; intros results; simpl; [left; eauto | ].
  destruct (field p) as [embedding | ]; [ | apply IH].
  destruct (calculate_similarity_cases q embedding) as [[sim ->] | ->];
    [ | right; reflexivity].
  cbn [Py.bind]. destruct (min_similarity <? sim)%float; apply IH.
Qed.

(** Both handlers, whatever the embedding step gives. *)
Lemma run_unfold (env : provider) (photos : list photo) (call : search_call)
  (limit : Z) :
  accepted call ->
  run env photos call limit
  = try_except
      (q <- embed env call ;;
       results <- scan (field_of call) q photos [] ;;
       Ok (rank (echo call) results limit))
      (fun e => ServerError (failure call) e).
Proof.
  destruct call as [query | image_data description]; simpl; intros Hacc.
  - unfold search_by_text. destruct query; [congruence | reflexivity].
  - reflexivity.
Qed.

(** X7: both search handlers answer whenever the endpoint does not
    stall (it is not asked, or it answers or fails: the POST has no
    timeout of its own): for every corpus, request and limit they
    return a reply (results, a refusal or an error reply); no exception
    escapes, not that of a wrong dimension and not that of a query
    that cannot be encoded. *)
Theorem search_always_answers
  (env : provider) (photos : list photo) (call : search_call) (limit : Z) :
  no_api_key env = true \/ voyage_post env (request_of call) <> Diverge ->
  exists reply, run env photos call limit = Ok reply.
Proof.
  intros Hends.
  assert (accepted call \/ call = TextSearch EmptyString) as [Hacc | ->].
  { destruct call as [[ | c query] | ]; simpl; auto. left. discriminate. }
  2: { simpl. unfold search_by_text. simpl. eauto. }
  rewrite (run_unfold env photos call limit Hacc).
  destruct (embed_cases env call) as [[q ->] | [[-> _] | (_ & Hkey & Hpost)]].
  - cbn [Py.bind].
    destruct (scan_cases (field_of call) q photos []) as [[found ->] | ->];
      simpl; eauto.
  - simpl. eauto.
  - destruct Hends as [Hends | Hends]; congruence.
Qed.

Lemma search_always_answers_witness :
  (no_api_key (live unit_query) = true
   \/ voyage_post (live unit_query) (request_of (TextSearch lone_surrogate)) <> Diverge)
  /\ exists reply,
       run (live unit_query) [same; broken] (TextSearch lone_surrogate) 20 = Ok reply.
Proof.
  assert (no_api_key (live unit_query) = true
          \/ voyage_post (live unit_query) (request_of (TextSearch lone_surrogate))
             <> Diverge) as H by (right; discriminate).
  split; [exact H | ].
  exact (search_always_answers (live unit_query) [same; broken]
           (TextSearch lone_surrogate) 20 H).
Defined.

(** A reply with results, read backwards. *)
Lemma run_results_inv (env : provider) (photos : list photo) (call : search_call)
  (limit : Z) (query : string) (results : list photo_data) (total limit' : Z) :
  run env photos call limit = Ok (Results query results total limit') ->
  exists q found,
    embed env call = Ok q
    /\ scan (field_of call) q photos [] = Ok found
    /\ query = echo call
    /\ results = Py.slice_to (sort_reverse found) limit
    /\ total = Py.len results /\ limit' = limit.
Proof.
  intros H.
  assert (accepted call) as Hacc.
  { destruct call as [[ | c text] | ]; simpl in *; auto; discriminate. }
  rewrite (run_unfold env photos call limit Hacc) in H.
  destruct (embed env call) as [q | e | ] eqn:He; cbn [Py.bind] in H;
    simpl in H; try discriminate.
  destruct (scan (field_of call) q photos []) as [found | e | ] eqn:Hs;
    simpl in H; try discriminate.
  unfold rank in H. injection H as <- <- <- <-.
  exists q, found. repeat split; auto.
Qed.

Lemma scan_sound (field : photo -> option pyval) (q : pyval) (photos : list photo) :
  forall results found,
    scan field q photos results = Ok found ->
    (List.length found <= List.length results + List.length photos)%nat
    /\ forall x, In x found ->
         In x results
         \/ exists p embedding sim,
              In p photos /\ field p = Some embedding
              /\ calculate_similarity q embedding = Ok sim
              /\ (min_similarity <? sim)%float = true
              /\ x = make_photo_data p sim.
Proof.
  induction photos as [ | p photos IH]; intros results found H; simpl in H.
  - injection H as <-. split; [lia | auto].
  - destruct (field p) as [embedding | ] eqn:Hp.
    + destruct (calculate_similarity q embedding) as [sim | e | ] eqn:Hsim;
        simpl in H; try discriminate.
      destruct (min_similarity <? sim)%float eqn:Hmin;
        destruct (IH _ _ H) as [Hlen Hin]; split.
      * rewrite length_app in Hlen. simpl in *. lia.
      * intros x Hx. destruct (Hin x Hx) as [Hacc | (p' & e' & s' & Hp' & Hrest)].
        -- apply in_app_or in Hacc. destruct Hacc as [Hacc | [<- | []]]; auto.
           right. exists p, embedding, sim. simpl. auto 10.
        -- right. exists p', e', s'. simpl. tauto.
      * simpl. lia.
      * intros x Hx. destruct (Hin x Hx) as [Hacc | (p' & e' & s' & Hp' & Hrest)];
          auto.
        right. exists p', e', s'. simpl. tauto.
    + destruct (IH _ _ H) as [Hlen Hin]. split; [simpl; lia | ].
      intros x Hx. destruct (Hin x Hx) as [Hacc | (p' & e' & s' & Hp' & Hrest)];
        auto.
      right. exists p', e', s'. simpl. tauto.
Qed.

Lemma slice_to_In {A : Type} (l : list A) (n : Z) (x : A) :
  In x (Py.slice_to l n) -> In x l.
Proof. unfold Py.slice_to. destruct (0 <=? n); apply firstn_In. Qed.

Lemma slice_to_length {A : Type} (l : list A) (n : Z) :
  (List.length (Py.slice_to l n) <= List.length l)%nat.
Proof. unfold Py.slice_to. destruct (0 <=? n); rewrite length_firstn; lia. Qed.

(** X8: a reply never invents an entry: every entry of the results is
    the entry of a photo of the corpus that has the requested
    embedding and scores strictly above the threshold against the
    query, and there are at most as many entries as photos. *)
Theorem results_come_from_corpus
  (env : provider) (photos : list photo) (call : search_call) (limit : Z)
  (query : string) (results : list photo_data) (total limit' : Z) :
  run env photos call limit = Ok (Results query results total limit') ->
  exists query_embedding,
    embed env call = Ok query_embedding
    /\ Py.len results <= Py.len photos
    /\ forall x, In x results ->
         exists p embedding sim,
           In p photos /\ field_of call p = Some embedding
           /\ calculate_similarity query_embedding embedding = Ok sim
           /\ (min_similarity <? sim)%float = true
           /\ x = make_photo_data p sim.
Proof.
  intros H.
  destruct (run_results_inv _ _ _ _ _ _ _ _ H)
    as (q & found & Hq & Hscan & _ & -> & _ & _).
  destruct (scan_sound _ _ _ _ _ Hscan) as [Hlen Hin].
  exists q. split; [exact Hq | split].
  - pose proof (slice_to_length (sort_reverse found) limit) as Hs.
    rewrite (Permutation_length (sort_reverse_perm found)) in Hs.
    unfold Py.len. simpl in Hlen. lia.
  - intros x Hx. apply slice_to_In in Hx.
    apply (Permutation_in _ (sort_reverse_perm found)) in Hx.
    destruct (Hin x Hx) as [[] | Hp]. exact Hp.
Qed.

Lemma results_come_from_corpus_witness :
  run (live unit_query) gallery (TextSearch "photo") 3
  = Ok (Results "photo" gallery_top3 3 3)
  /\ exists query_embedding,
       embed (live unit_query) (TextSearch "photo") = Ok query_embedding
       /\ Py.len gallery_top3 <= Py.len gallery
       /\ forall x, In x gallery_top3 ->
            exists p embedding sim,
              In p gallery /\ field_of (TextSearch "photo") p = Some embedding
              /\ calculate_similarity query_embedding embedding = Ok sim
              /\ (min_similarity <? sim)%float = true
              /\ x = make_photo_data p sim.
Proof.
  assert (run (live unit_query) gallery (TextSearch "photo") 3
          = Ok (Results "photo" gallery_top3 3 3)) as H
    by (vm_compute; reflexivity).
  split; [exact H | ].
  exact (results_come_from_corpus (live unit_query) gallery (TextSearch "photo")
           3 "photo" gallery_top3 3 3 H).
Defined.

(** X9: a smaller limit gives a prefix: for two limits that are not
    negative, the results of the search with the smaller one are the
    first entries of the results with the larger one. *)
Theorem smaller_limit_gives_prefix
  (env : provider) (photos : list photo) (call : search_call) (limit1 limit2 : Z)
  (query1 query2 : string) (results1 results2 : list photo_data)
  (total1 total2 limit1' limit2' : Z) :
  0 <= limit1 <= limit2 ->
  run env photos call limit1 = Ok (Results query1 results1 total1 limit1') ->
  run env photos call limit2 = Ok (Results query2 results2 total2 limit2') ->
  results1 = firstn (Z.to_nat limit1) results2.
Proof.
  intros Hl H1 H2.
  destruct (run_results_inv _ _ _ _ _ _ _ _ H1)
    as (q1 & found1 & Hq1 & Hs1 & _ & -> & _ & _).
  destruct (run_results_inv _ _ _ _ _ _ _ _ H2)
    as (q2 & found2 & Hq2 & Hs2 & _ & -> & _ & _).
  rewrite Hq1 in Hq2. injection Hq2 as <-.
  rewrite Hs1 in Hs2. injection Hs2 as <-.
  rewrite !slice_to_firstn by lia.
  rewrite firstn_firstn. f_equal. lia.
Qed.

Lemma smaller_limit_gives_prefix_witness :
  0 <= 1 <= 3
  /\ run (live unit_query) gallery (TextSearch "photo") 1
     = Ok (Results "photo" [make_photo_data same 1%float] 1 1)
  /\ run (live unit_query) gallery (TextSearch "photo") 3
     = Ok (Results "photo" gallery_top3 3 3)
  /\ [make_photo_data same 1%float] = firstn (Z.to_nat 1) gallery_top3.
Proof.
  assert (0 <= 1 <= 3) as H0 by lia.
  assert (run (live unit_query) gallery (TextSearch "photo") 1
          = Ok (Results "photo" [make_photo_data same 1%float] 1 1)) as H1
    by (vm_compute; reflexivity).
  assert (run (live unit_query) gallery (TextSearch "photo") 3
          = Ok (Results "photo" gallery_top3 3 3)) as H3
    by (vm_compute; reflexivity).
  split; [exact H0 | split; [exact H1 | split; [exact H3 | ]]].
  exact (smaller_limit_gives_prefix (live unit_query) gallery (TextSearch "photo")
           1 3 "photo" "photo" _ _ 1 3 1 3 H0 H1 H3).
Defined.

End AlwaysAnswer.

(** ** Uploads *)

Section Uploads.

Local Open Scope string_scope.

(** X10: an image search without a file, with an unnamed file or with
    a file whose name is not allowed is refused with a 400 reply that
    depends on nothing else: not on the provider, the corpus, the
    description or the limit (the image is not processed and no
    embedding is asked for). *)
Theorem invalid_upload_refused (image : option upload) :
  image = None \/ (exists file, image = Some file /\ unusable file) ->
  exists error,
    forall env photos description limit,
      search_by_image_request env photos image description limit
      = Ok (BadRequest error).
Proof.
  intros [-> | (file & -> & Hbad)].
  - exists "No image file provided". reflexivity.
  - unfold search_by_image_request.
    destruct (String.eqb_spec (filename file) "") as [E | E].
    + exists "No image file selected". reflexivity.
    + destruct Hbad as [Hbad | Hbad]; [contradiction | ].
      rewrite Hbad. exists "Invalid file type". reflexivity.
Qed.

Lemma invalid_upload_refused_witness :
  (Some {| filename := "notes.txt"; process_image := Ok "data:" |} = None
   \/ (exists file,
         Some {| filename := "notes.txt"; process_image := Ok "data:" |} = Some file
         /\ unusable file))
  /\ exists error,
       forall env photos description limit,
         search_by_image_request env photos
           (Some {| filename := "notes.txt"; process_image := Ok "data:" |})
           description limit
         = Ok (BadRequest error).
Proof.
  assert (Some {| filename := "notes.txt"; process_image := Ok "data:" |} = None
          \/ (exists file,
                Some {| filename := "notes.txt"; process_image := Ok "data:" |}
                = Some file
                /\ unusable file)) as H.
  { right. eexists. split; [reflexivity | ]. right. reflexivity. }
  split; [exact H | ].
  exact (invalid_upload_refused _ H).
Defined.

(** X11: an image search answers with results exactly when the request
    carries a file with an allowed name, the limit parses, the image
    can be processed, and the search on the processed image answers
    with these results. *)
Theorem image_results_iff_valid_upload
  (env : provider) (photos : list photo) (image : option upload)
  (description : string) (limit : outcome Z)
  (query : string) (results : list photo_data) (total limit' : Z) :
  search_by_image_request env photos image description limit
  = Ok (Results query results total limit')
  <-> exists file n image_data,
        image = Some file
        /\ filename file <> ""
        /\ allowed_file (filename file) = true
        /\ limit = Ok n
        /\ process_image file = Ok image_data
        /\ search_by_image env photos image_data description n
           = Ok (Results query results total limit').
Proof.
  unfold search_by_image_request. split.
  - intros H. destruct image as [file | ]; [ | discriminate].
    destruct (String.eqb_spec (filename file) "") as [E | E]; [discriminate | ].
    destruct (allowed_file (filename file)) eqn:Ha; [ | discriminate].
    cbn [negb] in H. destruct limit as [n | e | ]; try discriminate.
    destruct (process_image file) as [image_data | e | ] eqn:Hp; try discriminate.
    cbn [Py.bind] in H.
    exists file, n, image_data. repeat split; auto.
    destruct (search_by_image env photos image_data description n)
      as [r | e | ]; simpl in H; try discriminate. exact H.
  - intros (file & n & image_data & -> & Hname & Ha & -> & Hp & Hs).
    destruct (String.eqb_spec (filename file) "") as [E | E]; [contradiction | ].
    rewrite Ha, Hp. cbn [negb Py.bind]. rewrite Hs. reflexivity.
Qed.

End Uploads.

(** ** Ingestion *)

Section Ingestion.

(** One file: an error more, or a document and an entry more. *)
Lemma add_file_spec (env : provider) (new_id : nat -> string)
  (meta : list (string * string)) (title description : string)
  (i : nat) (file : upload) (st st' : ingestion) :
  add_file env new_id meta title description i file st = Ok st' ->
  (exists msg,
     st' = {| collection := collection st;
              added_photos := added_photos st;
              errors := errors st ++ [msg] |})
  \/ (exists doc entry,
        ~ unusable file
        /\ st' = {| collection := collection st ++ [doc];
                    added_photos := added_photos st ++ [entry];
                    errors := errors st |}
        /\ _id doc = added_id entry
        /\ stored_by env title description doc).
Proof.
  unfold add_file. intros H.
  destruct ((filename file =? "")%string || negb (allowed_file (filename file)))
    eqn:Hbad.
  { injection H as <-. left. eauto. }
  assert (~ unusable file) as Hok.
  { apply orb_false_iff in Hbad. destruct Hbad as [Hn1 Hn2].
    apply negb_false_iff in Hn2. apply String.eqb_neq in Hn1.
    intros [Hf | Hf]; congruence. }
  destruct (process_image file) as [image_data | e | ]; cbn [Py.bind] in H;
    [ | injection H as <-; left; eauto | discriminate].
  destruct (generate_text_embedding env (text_content_for title description))
    as [te | e | ] eqn:Hte; cbn [Py.bind] in H;
    [ | injection H as <-; left; eauto | discriminate].
  destruct (generate_image_embedding env image_data description)
    as [ie | e | ] eqn:Hie; cbn [Py.bind] in H;
    [ | injection H as <-; left; eauto | discriminate].
  injection H as <-. right. do 2 eexists.
  split; [exact Hok | split; [reflexivity | split; [reflexivity | ]]].
  exists image_data, te, ie. simpl. auto.
Qed.

(** What the loop of [add_photo] does to the collection and to its two
    lists. *)
Lemma add_files_spec (env : provider) (new_id : nat -> string)
  (meta : list (string * string)) (title description : string)
  (files : list upload) :
  forall i st st',
    add_files env new_id meta title description i files st = Ok st' ->
    exists docs more_added more_errors,
      collection st' = collection st ++ docs
      /\ added_photos st' = added_photos st ++ more_added
      /\ errors st' = errors st ++ more_errors
      /\ (List.length more_added + List.length more_errors = List.length files)%nat
      /\ map _id docs = map added_id more_added
      /\ (Forall unusable files -> docs = [] /\ more_added = [])
      /\ Forall (stored_by env title description) docs.
Proof.
  induction files as [ | file files IH]; intros i st st' H; simpl in H.
  - injection H as <-. exists [], [], []. rewrite !app_nil_r. auto 10.
  - destruct (add_file env new_id meta title description i file st)
      as [st1 | e | ] eqn:H1; simpl in H; try discriminate.
    destruct (IH _ _ _ H) as (docs & added & errs & Hc & Ha & He & Hn & Hid & Hun & Hall).
    destruct (add_file_spec _ _ _ _ _ _ _ _ _ H1)
      as [(msg & ->) | (doc & entry & Hok & -> & Hdoc & Hst)]; simpl in *.
    + exists docs, added, (msg :: errs).
      split; [exact Hc | split; [exact Ha | split]].
      { rewrite He, <- app_assoc. reflexivity. }
      split; [simpl; lia | split; [exact Hid | split; [ | exact Hall]]].
      intros Hu. inversion Hu; subst. now apply Hun.
    + exists (doc :: docs), (entry :: added), errs.
      split; [rewrite Hc, <- app_assoc; reflexivity | ].
      split; [rewrite Ha, <- app_assoc; reflexivity | ].
      split; [exact He | ].
      split; [simpl; lia | ].
      split; [simpl; now rewrite Hdoc, Hid | ].
      split; [ | constructor; assumption].
      intros Hu. inversion Hu; subst. contradiction.
Qed.

Lemma unusable_usable_file (file : upload) :
  unusable file <-> usable_file file = false.
Proof.
  unfold unusable, usable_file. rewrite andb_false_iff, negb_false_iff.
  now rewrite String.eqb_eq.
Qed.

(** A provider that does not stall returns or raises. *)
Lemma providers_end (env : provider) (call : search_call) :
  never_stalls env -> embed env call <> Diverge.
Proof.
  intros Hends.
  destruct (embed_cases env call) as [[q ->] | [[-> _] | (_ & Hkey & Hpost)]];
    try discriminate.
  destruct Hends as [Hends | Hends]; [congruence | ].
  now destruct (Hends (request_of call)).
Qed.

Lemma add_files_returns (env : provider) (new_id : nat -> string)
  (meta : list (string * string)) (title description : string)
  (files : list upload) :
  Forall (fun f => unusable f \/ (process_image f <> Diverge /\ never_stalls env))
    files ->
  forall i st, exists st', add_files env new_id meta title description i files st = Ok st'.
Proof.
  induction 1 as [ | file files Hf _ IH]; intros i st; simpl; [eauto | ].
  assert (exists st1, add_file env new_id meta title description i file st = Ok st1)
    as [st1 ->].
  { unfold add_file.
    destruct ((filename file =? "")%string || negb (allowed_file (filename file)))
      eqn:Hbad; [eauto | ].
    destruct Hf as [[Hf | Hf] | [Hf Hends]].
    - rewrite Hf in Hbad. discriminate.
    - rewrite Hf, orb_true_r in Hbad. discriminate.
    - destruct (process_image file) as [image_data | e | ]; cbn [Py.bind];
        [ | eauto | congruence].
      pose proof (providers_end env (TextSearch (text_content_for title description))
                    Hends) as Hte.
      pose proof (providers_end env (ImageSearch image_data description) Hends) as Hie.
      simpl in Hte, Hie.
      destruct (generate_text_embedding env (text_content_for title description))
        as [te | e | ]; cbn [Py.bind]; [ | eauto | congruence].
      destruct (generate_image_embedding env image_data description)
        as [ie | e | ]; cbn [Py.bind]; [ | eauto | congruence].
      eauto. }
  cbn [Py.bind]. apply IH.
Qed.

(** Where a stored document comes from. *)
Lemma add_file_origin (env : provider) (new_id : nat -> string)
  (meta : list (string * string)) (title description : string)
  (i : nat) (file : upload) (st st' : ingestion) :
  add_file env new_id meta title description i file st = Ok st' ->
  (collection st' = collection st /\ added_photos st' = added_photos st)
  \/ (exists doc entry,
        made_from [file] doc entry
        /\ collection st' = collection st ++ [doc]
        /\ added_photos st' = added_photos st ++ [entry]).
Proof.
  unfold add_file. intros H.
  destruct ((filename file =? "")%string || negb (allowed_file (filename file)))
    eqn:Hbad.
  { injection H as <-. left. auto. }
  assert (usable_file file = true) as Hok.
  { apply orb_false_iff in Hbad. destruct Hbad as [Hn1 Hn2].
    apply negb_false_iff in Hn2. unfold usable_file. now rewrite Hn1, Hn2. }
  destruct (process_image file) as [image_data | e | ] eqn:Himg; cbn [Py.bind] in H;
    [ | injection H as <-; left; auto | discriminate].
  destruct (generate_text_embedding env (text_content_for title description))
    as [te | e | ]; cbn [Py.bind] in H;
    [ | injection H as <-; left; auto | discriminate].
  destruct (generate_image_embedding env image_data description)
    as [ie | e | ]; cbn [Py.bind] in H;
    [ | injection H as <-; left; auto | discriminate].
  injection H as <-. right. do 2 eexists.
  split; [ | split; reflexivity].
  exists file, image_data. simpl. auto 10.
Qed.

Lemma made_from_more (file : upload) (files : list upload) (doc : photo)
  (entry : added_photo) :
  made_from [file] doc entry \/ made_from files doc entry ->
  made_from (file :: files) doc entry.
Proof.
  intros [(f & image_data & [<- | []] & H) | (f & image_data & Hin & H)].
  - exists file, image_data. simpl. auto.
  - exists f, image_data. simpl. auto.
Qed.

Lemma add_files_origin (env : provider) (new_id : nat -> string)
  (meta : list (string * string)) (title description : string)
  (files : list upload) :
  forall i st st',
    add_files env new_id meta title description i files st = Ok st' ->
    exists docs more_added,
      collection st' = collection st ++ docs
      /\ added_photos st' = added_photos st ++ more_added
      /\ Forall2 (made_from files) docs more_added
      /\ (List.length docs <= List.length (filter usable_file files))%nat.
Proof.
  induction files as [ | file files IH]; intros i st st' H; simpl in H.
  - injection H as <-. exists [], []. rewrite !app_nil_r.
    split; [reflexivity | split; [reflexivity | split; [constructor | simpl; lia]]].
  - destruct (add_file env new_id meta title description i file st)
      as [st1 | e | ] eqn:H1; simpl in H; try discriminate.
    destruct (IH _ _ _ H) as (docs & added & Hc & Ha & Hfrom & Hn).
    assert (Forall2 (made_from (file :: files)) docs added) as Hfrom'.
    { eapply Forall2_impl; [ | exact Hfrom].
      intros d a Hd. apply made_from_more. now right. }
    destruct (add_file_origin _ _ _ _ _ _ _ _ _ H1)
      as [[Hc1 Ha1] | (doc & entry & Hdoc & Hc1 & Ha1)].
    + exists docs, added. rewrite Hc, Ha, Hc1, Ha1.
      split; [reflexivity | split; [reflexivity | split; [exact Hfrom' | ]]].
      simpl. destruct (usable_file file); simpl; lia.
    + exists (doc :: docs), (entry :: added). rewrite Hc, Ha, Hc1, Ha1, <- !app_assoc.
      split; [reflexivity | split; [reflexivity | split]].
      * constructor; [ | exact Hfrom']. apply made_from_more. now left.
      * destruct Hdoc as (f & image_data & [<- | []] & Hok & _).
        simpl. rewrite Hok. simpl. lia.
Qed.

(** X12: [add_photo] accounts for every file once: in its report the
    entries of [added_photos] and the error messages together are as
    many as the files; the status is 201 when something was added and
    400 otherwise; the collection afterwards is the collection before
    followed by one document for each entry, in order, with the same
    identifier, and each stored document carries both embeddings. *)
Theorem add_photo_accounts_for_every_file
  (env : provider) (new_id : nat -> string) (meta : list (string * string))
  (photos photos' : list photo) (files : list upload) (title description : string)
  (message : string) (added : list added_photo) (add_errors : list string)
  (status : Z) :
  add_photo env new_id meta photos files title description
  = Ok (AddReport message added add_errors status, photos') ->
  (List.length added + List.length add_errors = List.length files)%nat
  /\ (status = 201 /\ added <> [] \/ status = 400 /\ added = [])
  /\ exists docs,
       photos' = photos ++ docs
       /\ map _id docs = map added_id added
       /\ Forall (stored_by env title description) docs.
Proof.
  unfold add_photo. intros H.
  destruct (forallb _ files); [discriminate | ].
  destruct (add_files env new_id meta title description 0 files _)
    as [st | e | ] eqn:Hloop; cbn [Py.bind] in H; try discriminate.
  injection H as _ <- <- <- <-.
  destruct (add_files_spec _ _ _ _ _ _ _ _ _ Hloop)
    as (docs & more & errs & Hc & Ha & He & Hn & Hid & _ & Hall).
  simpl in Hc, Ha, He. rewrite Ha, He, Hc.
  split; [exact Hn | split].
  - destruct more; [right | left]; split; auto; discriminate.
  - exists docs. auto.
Qed.

Lemma add_photo_accounts_for_every_file_witness :
  add_photo demo_mode file_number [] [bare] three_uploads "" "sea"
  = Ok (AddReport "Successfully added 1 photos"
          [{| added_id := "2"; added_title := "Photo 1";
              added_filename := "beach.png" |}]
          ["File 2: Invalid file type";
           "File 3 (torn.jpg): cannot identify image file"]%string
          201,
        [bare;
         photo_doc "2" [] "" "sea" 0 "data:image/jpeg;base64,AAAA"
           (match generate_text_embedding demo_mode "sea" with
            | Ok e => e
            | _ => PyNone
            end)
           (match generate_image_embedding demo_mode "" "sea" with
            | Ok e => e
            | _ => PyNone
            end)])
  /\ (1 + 2 = List.length three_uploads)%nat
  /\ (201 = 201 /\ [{| added_id := "2"; added_title := "Photo 1";
                       added_filename := "beach.png" |}] <> []
      \/ 201 = 400 /\ [{| added_id := "2"; added_title := "Photo 1";
                          added_filename := "beach.png" |}] = []).
Proof.
  assert (add_photo demo_mode file_number [] [bare] three_uploads "" "sea"
          = Ok (AddReport "Successfully added 1 photos"
                  [{| added_id := "2"; added_title := "Photo 1";
                      added_filename := "beach.png" |}]
                  ["File 2: Invalid file type";
                   "File 3 (torn.jpg): cannot identify image file"]%string
                  201,
                [bare;
                 photo_doc "2" [] "" "sea" 0 "data:image/jpeg;base64,AAAA"
                   (match generate_text_embedding demo_mode "sea" with
                    | Ok e => e
                    | _ => PyNone
                    end)
                   (match generate_image_embedding demo_mode "" "sea" with
                    | Ok e => e
                    | _ => PyNone
                    end)])) as H by (vm_compute; reflexivity).
  split; [exact H | ].
  destruct (add_photo_accounts_for_every_file _ _ _ _ _ _ _ _ _ _ _ _ H)
    as (H1 & H2 & _).
  exact (conj H1 H2).
Defined.

(** X13: [add_photo] always answers, and never with its 500 reply, as
    long as nothing it calls stalls: the imaging library returns or
    raises on every file it is given, and the embedding endpoint is
    not asked or answers or fails whatever it is asked (its POST has no
    timeout); the insertion into the collection is taken to succeed.
    What goes wrong with a file is then caught and listed, and the
    collection only grows at its end. *)
Theorem add_photo_always_answers
  (env : provider) (new_id : nat -> string) (meta : list (string * string))
  (photos : list photo) (files : list upload) (title description : string) :
  never_stalls env ->
  Forall (fun f => unusable f \/ process_image f <> Diverge) files ->
  exists reply photos',
    add_photo env new_id meta photos files title description = Ok (reply, photos')
    /\ (forall error e, reply <> AddFailed error e)
    /\ exists docs, photos' = photos ++ docs.
Proof.
  intros Hends Hfiles. unfold add_photo.
  destruct (forallb _ files).
  { exists (AddRejected "No photo files provided"), photos.
    split; [reflexivity | split; [discriminate | ]].
    exists []. now rewrite app_nil_r. }
  assert (Forall (fun f => unusable f \/ (process_image f <> Diverge /\ never_stalls env))
            files) as Hret.
  { eapply Forall_impl; [ | exact Hfiles]. intros f [Hf | Hf]; auto. }
  destruct (add_files_returns env new_id meta title description files Hret 0
              {| collection := photos; added_photos := []; errors := [] |})
    as [st Hloop].
  rewrite Hloop. cbn [Py.bind].
  destruct (add_files_spec _ _ _ _ _ _ _ _ _ Hloop) as (docs & _ & _ & Hc & _).
  eexists _, _. split; [reflexivity | split; [discriminate | ]].
  exists docs. exact Hc.
Qed.

Lemma add_photo_always_answers_witness :
  never_stalls (live unit_query)
  /\ Forall (fun f => unusable f \/ process_image f <> Diverge) three_uploads
  /\ exists reply photos',
       add_photo (live unit_query) file_number [] [bare] three_uploads "" "sea"
       = Ok (reply, photos')
       /\ (forall error e, reply <> AddFailed error e)
       /\ exists docs, photos' = [bare] ++ docs.
Proof.
  assert (never_stalls (live unit_query)) as H0 by (right; discriminate).
  assert (Forall (fun f => unusable f \/ process_image f <> Diverge) three_uploads)
    as H.
  { unfold three_uploads.
    repeat (apply Forall_cons; [right; simpl; discriminate | ]). apply Forall_nil. }
  split; [exact H0 | split; [exact H | ]].
  exact (add_photo_always_answers (live unit_query) file_number [] [bare] three_uploads
           "" "sea" H0 H).
Defined.

(** X14: [add_photo] stores nothing for a file without a name or with
    a name that is not allowed.  In every request, each document
    appended to the collection goes with one entry of ["added_photos"],
    in order, and both come from a file of the request whose name is
    not empty and is allowed and which [process_image] accepted: the
    document's image is what [process_image] returned for that file,
    the entry carries the file's name and the document's identifier;
    and there are no more documents than files with such a name.  When
    no file of the request has such a name, the collection is left as
    it was and the reply is the refusal "No photo files provided" or a
    report with status 400, nothing added and one error for each
    file. *)
Theorem add_photo_stores_nothing_unusable
  (env : provider) (new_id : nat -> string) (meta : list (string * string))
  (photos : list photo) (files : list upload) (title description : string) :
  (forall reply photos',
     add_photo env new_id meta photos files title description = Ok (reply, photos') ->
     exists docs,
       photos' = photos ++ docs
       /\ (List.length docs <= List.length (filter usable_file files))%nat
       /\ match reply with
          | AddReport _ added _ _ => Forall2 (made_from files) docs added
          | _ => docs = []
          end)
  /\ (Forall unusable files ->
      exists reply,
        add_photo env new_id meta photos files title description = Ok (reply, photos)
        /\ (reply = AddRejected "No photo files provided"
            \/ exists message add_errors,
                 reply = AddReport message [] add_errors 400
                 /\ List.length add_errors = List.length files)).
Proof.
  split.
  - intros reply photos' H. unfold add_photo in H.
    destruct (forallb _ files).
    { injection H as <- <-. exists []. rewrite app_nil_r.
      split; [reflexivity | split; [simpl; lia | reflexivity]]. }
    destruct (add_files env new_id meta title description 0 files _)
      as [st | e | ] eqn:Hloop; cbn [Py.bind] in H; try discriminate.
    2: { injection H as <- <-. exists []. rewrite app_nil_r.
         split; [reflexivity | split; [simpl; lia | reflexivity]]. }
    injection H as <- <-.
    destruct (add_files_origin _ _ _ _ _ _ _ _ _ Hloop)
      as (docs & more & Hc & Ha & Hfrom & Hn).
    simpl in Hc, Ha. exists docs. rewrite Ha. auto.
  - intros Hfiles. unfold add_photo.
    destruct (forallb _ files); [eauto | ].
    assert (Forall (fun f => unusable f
                             \/ (process_image f <> Diverge /\ never_stalls env)) files)
      as Hret.
    { eapply Forall_impl; [ | exact Hfiles]. auto. }
    destruct (add_files_returns env new_id meta title description files Hret 0
                {| collection := photos; added_photos := []; errors := [] |})
      as [st Hloop].
    rewrite Hloop. cbn [Py.bind].
    destruct (add_files_spec _ _ _ _ _ _ _ _ _ Hloop)
      as (docs & more & errs & Hc & Ha & He & Hn & _ & Hun & _).
    destruct (Hun Hfiles) as [-> ->]. simpl in Hc, Ha, He, Hn.
    rewrite app_nil_r in Hc. rewrite Hc, Ha, He.
    eexists. split; [reflexivity | ]. right. eauto.
Qed.

Lemma add_photo_stores_nothing_unusable_witness :
  exists reply photos',
    add_photo demo_mode file_number [] [bare] three_uploads "" "sea"
    = Ok (reply, photos')
    /\ exists docs,
         photos' = [bare] ++ docs
         /\ (List.length docs <= List.length (filter usable_file three_uploads))%nat
         /\ match reply with
            | AddReport _ added _ _ => Forall2 (made_from three_uploads) docs added
            | _ => docs = []
            end.
Proof.
  destruct (add_photo demo_mode file_number [] [bare] three_uploads "" "sea")
    as [[reply photos'] | e | ] eqn:H.
  - exists reply, photos'. split; [reflexivity | ].
    exact (proj1 (add_photo_stores_nothing_unusable demo_mode file_number [] [bare]
                    three_uploads "" "sea") reply photos' H).
  - vm_compute in H. discriminate.
  - vm_compute in H. discriminate.
Defined.

End Ingestion.

(** ** Ingestion, then search, in fallback mode *)

Section FallbackCorpus.

Lemma fallback_text_dimension (env : provider) (text : string) (e : pyval) :
  no_api_key env = true ->
  generate_text_embedding env text = Ok e -> has_dimension 1024 (Some e).
Proof.
  unfold generate_text_embedding. intros -> H.
  destruct (generate_mock_embedding text default_dimension) as [v' | e' | ] eqn:Hm;
    try discriminate.
  destruct (generate_mock_embedding_returns text (generate_mock_embedding_Ok _ _ _ Hm))
    as (v & Hv & Hlen & _).
  rewrite Hv in Hm. injection Hm as <-. injection H as <-. exists v. auto.
Qed.

Lemma fallback_image_dimension (env : provider) (image_data description : string)
  (e : pyval) :
  no_api_key env = true ->
  generate_image_embedding env image_data description = Ok e ->
  has_dimension 1024 (Some e).
Proof.
  unfold generate_image_embedding. intros -> H.
  destruct (generate_mock_embedding (combined_text description) default_dimension)
    as [v' | e' | ] eqn:Hm; try discriminate.
  destruct (generate_mock_embedding_returns _ (generate_mock_embedding_Ok _ _ _ Hm))
    as (v & Hv & Hlen & _).
  rewrite Hv in Hm. injection Hm as <-. injection H as <-. exists v. auto.
Qed.

(** X15: in fallback mode [add_photo] keeps the collection uniform: if
    every photo of the collection has both embeddings with 1024
    components, so has every photo of the collection after the
    request. *)
Theorem add_photo_keeps_fallback_size
  (env : provider) (new_id : nat -> string) (meta : list (string * string))
  (photos photos' : list photo) (files : list upload) (title description : string)
  (reply : add_reply) :
  no_api_key env = true ->
  fallback_sized photos ->
  add_photo env new_id meta photos files title description = Ok (reply, photos') ->
  fallback_sized photos'.
Proof.
  intros Hkey Hsized H. unfold add_photo in H.
  destruct (forallb _ files); [injection H as _ <-; exact Hsized | ].
  destruct (add_files env new_id meta title description 0 files _)
    as [st | e | ] eqn:Hloop; cbn [Py.bind] in H; try discriminate.
  2: { injection H as _ <-. exact Hsized. }
  injection H as _ <-.
  destruct (add_files_spec _ _ _ _ _ _ _ _ _ Hloop)
    as (docs & more & errs & Hc & Ha & He & Hn & Hid & Hun & Hall).
  simpl in Hc. rewrite Hc. apply Forall_app. split; [exact Hsized | ].
  eapply Forall_impl; [ | exact Hall].
  intros d (image_data & te & ie & Hte & Hie & Hd1 & Hd2 & _).
  rewrite Hd1, Hd2. split.
  - exact (fallback_text_dimension env _ te Hkey Hte).
  - exact (fallback_image_dimension env _ _ ie Hkey Hie).
Qed.

Lemma add_photo_keeps_fallback_size_witness :
  no_api_key demo_mode = true
  /\ fallback_sized []
  /\ (exists reply photos',
        add_photo demo_mode file_number [] [] three_uploads "" "sea"
        = Ok (reply, photos')
        /\ fallback_sized photos').
Proof.
  assert (no_api_key demo_mode = true) as H1 by reflexivity.
  assert (fallback_sized []) as H2 by apply Forall_nil.
  split; [exact H1 | split; [exact H2 | ]].
  destruct (add_photo demo_mode file_number [] [] three_uploads "" "sea")
    as [[reply photos'] | e | ] eqn:H.
  - exists reply, photos'. split; [reflexivity | ].
    exact (add_photo_keeps_fallback_size demo_mode file_number [] [] photos'
             three_uploads "" "sea" reply H1 H2 H).
  - vm_compute in H. discriminate.
  - vm_compute in H. discriminate.
Defined.

Lemma fallback_sized_scorable (field : photo -> option pyval) (q : list float)
  (photos : list photo) :
  (field = textEmbedding \/ field = imageEmbedding) ->
  List.length q = 1024%nat ->
  fallback_sized photos -> scorable field (PyList q) photos.
Proof.
  intros Hfield Hq Hsized. unfold scorable.
  eapply Forall_impl; [ | exact Hsized].
  intros p [(v1 & Hv1 & Hl1) (v2 & Hv2 & Hl2)] embedding He.
  assert (exists v, embedding = PyList v /\ List.length v = 1024%nat) as (v & -> & Hl).
  { destruct Hfield as [-> | ->]; rewrite He in *;
      [injection Hv1 as -> | injection Hv2 as ->]; eauto. }
  unfold calculate_similarity, np_dot.
  destruct q as [ | x q]; [discriminate | ].
  destruct v as [ | y v]; [discriminate | ].
  cbn [falsy orb components]. rewrite Hq, Hl, Nat.eqb_refl. cbn [Py.bind].
  destruct (_ || _); eauto.
Qed.

(** X16: in fallback mode a collection in which every photo has both
    embeddings with 1024 components (as [add_photo] leaves it) can be
    searched with every accepted request whose text (the query, or the
    description sent with the image) can be encoded as UTF-8: the
    answer has results, never an error reply, whatever the limit.  A
    request whose text holds a lone surrogate, which a JSON query can,
    gets the error reply of the handler instead, with the
    [UnicodeEncodeError] of [text.encode()]. *)
Theorem fallback_corpus_always_searchable
  (env : provider) (photos : list photo) (call : search_call) (limit : Z) :
  no_api_key env = true ->
  fallback_sized photos ->
  accepted call ->
  (has_surrogate (text_of call) = false ->
   exists results,
     run env photos call limit = Ok (Results (echo call) results (Py.len results) limit))
  /\ (has_surrogate (text_of call) = true ->
      run env photos call limit
      = Ok (ServerError (failure call) surrogates_not_allowed)).
Proof.
  intros Hkey Hsized Hacc.
  rewrite (run_unfold env photos call limit Hacc).
  rewrite (embed_fallback env call (or_introl Hkey)).
  split; intros Hs.
  - destruct (generate_mock_embedding_returns _ Hs) as (q & -> & Hlen & _).
    cbn [Py.bind].
    rewrite (scan_qualifying (field_of call) (PyList q) photos).
    + cbn [Py.bind try_except]. unfold rank. eauto.
    + apply fallback_sized_scorable; auto. destruct call; auto.
  - rewrite (generate_mock_embedding_raises _ _ Hs). reflexivity.
Qed.

Lemma fallback_corpus_always_searchable_witness :
  no_api_key demo_mode = true
  /\ fallback_sized [ingested "red sunset"; ingested "blue sea"]
  /\ accepted (TextSearch "red sunset")
  /\ has_surrogate (text_of (TextSearch "red sunset")) = false
  /\ exists results,
       run demo_mode [ingested "red sunset"; ingested "blue sea"]
           (TextSearch "red sunset") 5
       = Ok (Results (echo (TextSearch "red sunset")) results (Py.len results) 5).
Proof.
  assert (no_api_key demo_mode = true) as H1 by reflexivity.
  assert (fallback_sized [ingested "red sunset"; ingested "blue sea"]) as H2.
  { repeat (apply Forall_cons;
            [split; eexists; (split; [vm_compute; reflexivity | reflexivity]) | ]).
    apply Forall_nil. }
  assert (accepted (TextSearch "red sunset")) as H3 by discriminate.
  assert (has_surrogate (text_of (TextSearch "red sunset")) = false) as H4
    by reflexivity.
  split; [exact H1 | split; [exact H2 | split; [exact H3 | split; [exact H4 | ]]]].
  exact (proj1 (fallback_corpus_always_searchable demo_mode
                  [ingested "red sunset"; ingested "blue sea"] (TextSearch "red sunset") 5
                  H1 H2 H3) H4).
Defined.

End FallbackCorpus.

(** ** The listing *)

Section Listing.

Lemma firstn_add {A : Type} (a b : nat) :
  forall l : list A, firstn (a + b) l = firstn a l ++ firstn b (skipn a l).
Proof.
  induction a as [ | a IH]; intros [ | x l]; simpl; auto.
  - now rewrite firstn_nil.
  - now rewrite IH.
Qed.

(** Consecutive slices of [n] make up the front of the list. *)
Lemma slices_make_prefix {A : Type} (l : list A) (n m : nat) :
  List.concat (map (fun k => firstn n (skipn ((k - 1) * n) l)) (seq 1 m))
  = firstn (m * n) l.
Proof.
  induction m as [ | m IH]; [reflexivity | ].
  rewrite seq_S, map_app, concat_app, IH. cbn [map List.concat].
  rewrite app_nil_r.
  replace (1 + m - 1)%nat with m by lia.
  replace (S m * n)%nat with (m * n + n)%nat by lia.
  now rewrite firstn_add.
Qed.

Lemma get_photos_in_range (photos : list photo) (page limit : Z)
  (category : option string) :
  1 <= page -> 1 <= limit ->
  get_photos photos page limit category
  = Page (firstn (Z.to_nat limit)
            (skipn (Z.to_nat ((page - 1) * limit)) (matching photos category)))
         page limit (Py.len (matching photos category))
         ((Py.len (matching photos category) + limit - 1) / limit).
Proof.
  intros Hp Hl. unfold get_photos, cursor_limit.
  destruct ((page - 1) * limit <? 0) eqn:E; [nia | ].
  destruct (limit =? 0) eqn:E0; [lia | ].
  now rewrite Z.abs_eq by lia.
Qed.

(** X17: for a page and a limit of at least 1, the listing shows the
    documents that follow the first [(page - 1) * limit] matching ones,
    at most [limit] of them; [total] is the number of matching
    documents and [pages] the least number of pages of [limit]
    documents that hold them all; a page after the last one is
    empty. *)
Theorem get_photos_page (photos : list photo) (page limit : Z)
  (category : option string) :
  1 <= page -> 1 <= limit ->
  exists shown total pages,
    get_photos photos page limit category = Page shown page limit total pages
    /\ shown = firstn (Z.to_nat limit)
                 (skipn (Z.to_nat ((page - 1) * limit)) (matching photos category))
    /\ total = Py.len (matching photos category)
    /\ Py.len shown <= limit
    /\ limit * (pages - 1) < total <= limit * pages
    /\ (pages < page -> shown = []).
Proof.
  intros Hp Hl. rewrite (get_photos_in_range photos page limit category Hp Hl).
  set (found := matching photos category).
  set (total := Py.len found).
  eexists _, _, _. split; [reflexivity | split; [reflexivity | split; [reflexivity | ]]].
  assert (0 <= total) as Ht by (unfold total, Py.len; lia).
  pose proof (Z.div_mod (total + limit - 1) limit ltac:(lia)) as Hdiv.
  pose proof (Z.mod_pos_bound (total + limit - 1) limit ltac:(lia)) as Hmod.
  set (pages := (total + limit - 1) / limit) in *.
  split; [ | split].
  - unfold Py.len. rewrite length_firstn. lia.
  - lia.
  - intros Hlast. rewrite skipn_all2; [apply firstn_nil | ].
    assert (limit * pages <= (page - 1) * limit) by nia.
    unfold total, Py.len in *. lia.
Qed.

Lemma get_photos_page_witness :
  1 <= 2 /\ 1 <= 4
  /\ exists shown total pages,
       get_photos gallery 2 4 None = Page shown 2 4 total pages
       /\ shown = firstn (Z.to_nat 4)
                    (skipn (Z.to_nat ((2 - 1) * 4)) (matching gallery None))
       /\ total = Py.len (matching gallery None)
       /\ Py.len shown <= 4
       /\ 4 * (pages - 1) < total <= 4 * pages
       /\ (pages < 2 -> shown = []).
Proof.
  assert (1 <= 2) as H1 by lia.
  assert (1 <= 4) as H2 by lia.
  split; [exact H1 | split; [exact H2 | ]].
  exact (get_photos_page gallery 2 4 None H1 H2).
Defined.

(** X18: the pages of a listing, from the first to the last, one after
    the other, are exactly the matching documents, each once and in
    order: nothing is shown twice and nothing is left out. *)
Theorem pages_cover_listing (photos : list photo) (limit : Z)
  (category : option string) :
  1 <= limit ->
  all_pages photos limit category
    (Z.to_nat ((Py.len (matching photos category) + limit - 1) / limit))
  = matching photos category.
Proof.
  intros Hl. unfold all_pages.
  set (found := matching photos category).
  set (pages := Z.to_nat ((Py.len found + limit - 1) / limit)).
  rewrite (map_ext_in _
             (fun k => firstn (Z.to_nat limit)
                         (skipn ((k - 1) * Z.to_nat limit) found))).
  - rewrite slices_make_prefix. apply firstn_all2.
    assert (0 <= Py.len found) as Ht by (unfold Py.len; lia).
    pose proof (Z.div_mod (Py.len found + limit - 1) limit ltac:(lia)) as Hdiv.
    pose proof (Z.mod_pos_bound (Py.len found + limit - 1) limit ltac:(lia)) as Hmod.
    assert (0 <= (Py.len found + limit - 1) / limit) as Hq
      by (apply Z.div_pos; lia).
    unfold pages. unfold Py.len in *. nia.
  - intros k Hk. apply in_seq in Hk.
    rewrite (get_photos_in_range photos (Z.of_nat k) limit category) by lia.
    cbn [page_photos]. fold found. do 2 f_equal. nia.
Qed.

Lemma pages_cover_listing_witness :
  1 <= 4
  /\ all_pages gallery 4 None (Z.to_nat ((Py.len (matching gallery None) + 4 - 1) / 4))
     = matching gallery None.
Proof.
  assert (1 <= 4) as H by lia.
  split; [exact H | ].
  exact (pages_cover_listing gallery 4 None H).
Defined.

(** X19: the listing fails with its 500 reply for a limit of 0,
    whatever the page and the category (the page count divides by the
    limit), and for a page below 1 with a limit of at least 1 (the
    cursor refuses to skip a negative number of documents). *)
Theorem get_photos_fails (photos : list photo) (page limit : Z)
  (category : option string) :
  (limit = 0 ->
   get_photos photos page limit category
   = ListingFailed "Failed to get photos" ZeroDivisionError)
  /\ (page < 1 -> 1 <= limit ->
      get_photos photos page limit category
      = ListingFailed "Failed to get photos" NegativeSkip).
Proof.
  unfold get_photos. split.
  - intros ->. rewrite Z.mul_0_r. reflexivity.
  - intros Hp Hl. destruct ((page - 1) * limit <? 0) eqn:E; [reflexivity | nia].
Qed.

End Listing.
